(** * myFlix server: the Express application of [index.js]

    A shallow embedding of the route table of [index.js]: the passport guard,
    the express-validator chains of the registration route, the mongoose calls
    of every request callback and the response each callback sends.

    Conventions.
    - A JavaScript string is a [string]; a property that may be [undefined]
      or [null] is an [option string] ([None] for both).
    - [req.body] is a finite map from property names to strings.
    - The two collections are lists of documents in insertion order;
      [findOne] and the [findOneAnd...] calls address the first match.
    - A mongoose call is a promise: it settles as fulfilled or rejected, and
      the callback's [.then]/[.catch] chain is written with [then_] and
      [catch_]; the error-first callbacks of [findOneAndUpdate] with
      [node_callback].
    - What [index.js] imports from files that are not part of the sources
      ([models.js], [passport.js]) or from libraries whose code is too large
      to embed ([validator]'s e-mail syntax, storage failures) is a field of
      [Collaborators].
    - A request carries the checked properties in its body only: [check]
      also reads the query string, the cookies and the headers, and the
      requests here have no [userName], [password] or [email] there.
    - Strings are sequences of 8-bit characters, for which [validator]'s
      length is [String.length]. *)

From stdpp Require Import gmap strings list fin_maps.

(** ** Documents *)

(** Modelled from the spec: the schemas of [models.js], which is not part of
    the sources. A movie has a title, a genre (name and description) and a
    director (name and further data); [index.js] reads [Title],
    [Genre.Name] and [Director.Name]. Identifiers and version keys that
    mongoose adds are left out. *)
Record GenreDoc := { Genre_Name : string; Genre_Description : string }.

Record DirectorDoc := { Director_Name : string; Director_Bio : string }.

Record MovieDoc := {
  Title : string;
  Description : string;
  Genre : GenreDoc;
  Director : DirectorDoc
}.

(** Modelled from the spec: the user schema of [models.js]. The paths are
    the ones the registration callback writes, [userName], [password],
    [email] and [Birthday], and [FavoriteMovies], the array the favourites
    routes push to and pull from. *)
Record UserDoc := {
  userName : option string;
  password : option string;
  email : option string;
  Birthday : option string;
  FavoriteMovies : list string
}.

Record Store := { Users : list UserDoc; Movies : list MovieDoc }.

#[global] Instance GenreDoc_eq_dec : EqDecision GenreDoc.
Proof. solve_decision. Defined.
#[global] Instance DirectorDoc_eq_dec : EqDecision DirectorDoc.
Proof. solve_decision. Defined.
#[global] Instance MovieDoc_eq_dec : EqDecision MovieDoc.
Proof. solve_decision. Defined.
#[global] Instance UserDoc_eq_dec : EqDecision UserDoc.
Proof. solve_decision. Defined.

(** ** Queries and updates *)

(** The filters of [index.js]. [by_Username] is the filter of the route
    registered last, [{ Username: ... }]: a path no document written by this
    file has. A filter on [undefined] addresses the documents whose path is
    unset. *)
Inductive UserFilter :=
| by_userName (name : option string)
| by_Username (name : string).

Inductive MovieFilter :=
| by_Title (title : string)
| by_Genre_Name (name : string)
| by_Director_Name (name : string).

(** [$set], [$push] and [$pull] as the callbacks use them. The last one is
    the [$push] of the route registered last, on the path [FavouriteMovies]. *)
Inductive Update :=
| set_profile (newUserName newPassword newEmail newBirthday : option string)
| push_FavoriteMovies (ref : string)
| pull_FavoriteMovies (ref : string)
| push_FavouriteMovies (ref : string).

Definition user_matches (q : UserFilter) (u : UserDoc) : Prop :=
  match q with
  | by_userName name => userName u = name
  | by_Username _ => False
  end.

#[global] Instance user_matches_dec q u : Decision (user_matches q u).
Proof. destruct q; simpl; apply _. Defined.

Definition movie_matches (q : MovieFilter) (m : MovieDoc) : Prop :=
  match q with
  | by_Title title => Title m = title
  | by_Genre_Name name => Genre_Name (Genre m) = name
  | by_Director_Name name => Director_Name (Director m) = name
  end.

#[global] Instance movie_matches_dec q m : Decision (movie_matches q m).
Proof. destruct q; simpl; apply _. Defined.

(** A key of [$set] whose value is [undefined] is dropped when
    [omitUndefined] holds and written as [null] otherwise. *)
Definition set_path (omitUndefined : bool) (old new : option string)
  : option string :=
  match new with
  | Some v => Some v
  | None => if omitUndefined then old else None
  end.

Definition with_FavoriteMovies (u : UserDoc) (l : list string) : UserDoc :=
  {| userName := userName u; password := password u; email := email u;
     Birthday := Birthday u; FavoriteMovies := l |}.

(** [$push] appends one element; [$pull] removes every element equal to the
    given one. *)
Definition apply_update (omitUndefined : bool) (upd : Update) (u : UserDoc)
  : UserDoc :=
  match upd with
  | set_profile n p e b =>
      {| userName := set_path omitUndefined (userName u) n;
         password := set_path omitUndefined (password u) p;
         email := set_path omitUndefined (email u) e;
         Birthday := set_path omitUndefined (Birthday u) b;
         FavoriteMovies := FavoriteMovies u |}
  | push_FavoriteMovies ref =>
      with_FavoriteMovies u (FavoriteMovies u ++ [ref])
  | pull_FavoriteMovies ref =>
      with_FavoriteMovies u (filter (λ x, x ≠ ref) (FavoriteMovies u))
  | push_FavouriteMovies _ => u
  end.

(** ** The queries on the users collection *)

Definition findOne (q : UserFilter) (l : list UserDoc) : option UserDoc :=
  snd <$> list_find (user_matches q) l.

(** With [{ new: true }]: the document as it is after the update, or [null]
    when no document matches. *)
Definition findOneAndUpdate (omit : bool) (q : UserFilter) (upd : Update)
    (s : Store) : option UserDoc * Store :=
  match list_find (user_matches q) (Users s) with
  | Some (i, u) =>
      let u' := apply_update omit upd u in
      (Some u', {| Users := <[i := u']> (Users s); Movies := Movies s |})
  | None => (None, s)
  end.

Definition findOneAndRemove (q : UserFilter) (s : Store)
  : option UserDoc * Store :=
  match list_find (user_matches q) (Users s) with
  | Some (i, u) => (Some u, {| Users := delete i (Users s); Movies := Movies s |})
  | None => (None, s)
  end.

(** The mongoose calls [index.js] issues, as recorded in the journal of a
    request. *)
Inductive Call :=
| Movies_find_call
| Movies_findOne_call (q : MovieFilter)
| Users_find_call
| Users_findOne_call (q : UserFilter)
| Users_create_call (doc : UserDoc)
| Users_findOneAndUpdate_call (q : UserFilter) (upd : Update)
| Users_findOneAndRemove_call (q : UserFilter).

(** ** Responses *)

(** An entry of [validationResult(req).array()]. *)
Record ValidationError := {
  value : option string;
  msg : string;
  param : string;
  location : string
}.

Inductive Payload :=
| Text (s : string)
| File (path : string)
| ErrorPage (err : string)
| JsonNull
| JsonUndefined
| JsonMovie (m : MovieDoc)
| JsonMovies (l : list MovieDoc)
| JsonGenre (g : GenreDoc)
| JsonDirector (d : DirectorDoc)
| JsonUser (u : UserDoc)
| JsonUsers (l : list UserDoc)
| JsonStrings (l : list string)
| JsonErrors (l : list ValidationError).

Record Response := { status : nat; payload : Payload }.

(** [res.json] of a value that may be [null]. *)
Definition json_user (u : option UserDoc) : Payload :=
  match u with Some d => JsonUser d | None => JsonNull end.

Definition json_movie (m : option MovieDoc) : Payload :=
  match m with Some d => JsonMovie d | None => JsonNull end.

(** ** Requests *)

Inductive Route :=
| GET_home
| GET_documentation
| GET_movies
| GET_users
| GET_movies_title (title : string)
| GET_users_Username (Username : string)
| GET_genres_genreName (genreName : string)
| GET_directors_Name (Name : string)
| POST_users
| PUT_users_Username (Username : string)
| POST_users_userName_favoriteMovies_MovieID (userName MovieID : string)
| DELETE_users_userName (userName : string)
| DELETE_users_userName_movies_title (userName title : string)
| GET_users_favorites_userName (userName : string)
| GET_users_favoriteMovies_userName (userName : string)
| GET_secreturl
| PUT_users_userName_MovieID (userName MovieID : string).

Record Request := {
  route : Route;
  authorization : option string;
  body : gmap string string
}.

(** ** Promises *)

Inductive Settled (A : Type) :=
| Fulfilled (a : A)
| Rejected (reason : string).
Arguments Fulfilled {A} a.
Arguments Rejected {A} reason.

(** The state a request callback acts on: the collections, the journal of
    mongoose calls issued so far and the response sent, if any. *)
Record World := {
  store : Store;
  journal : list Call;
  sent : option Response
}.

Definition Promise (A : Type) : Type := World → Settled A * World.

Definition throw {A} (reason : string) : Promise A := λ w, (Rejected reason, w).

Definition then_ {A B} (p : Promise A) (f : A → Promise B) : Promise B :=
  λ w, match p w with
       | (Fulfilled a, w') => f a w'
       | (Rejected e, w') => (Rejected e, w')
       end.

Definition catch_ {A} (p : Promise A) (g : string → Promise A) : Promise A :=
  λ w, match p w with
       | (Fulfilled a, w') => (Fulfilled a, w')
       | (Rejected e, w') => g e w'
       end.

(** The error-first callback [(err, result) => ...] passed to a query. *)
Definition node_callback {A} (p : Promise (option A))
    (k : option string → option A → Promise unit) : Promise unit :=
  λ w, match p w with
       | (Fulfilled a, w') => k None a w'
       | (Rejected e, w') => k (Some e) None w'
       end.

(** [res.status(code).send(...)] and [res.status(code).json(...)]: the first
    response of a request is the one the client receives. *)
Definition respond (code : nat) (p : Payload) : Promise unit :=
  λ w, (Fulfilled (),
        {| store := store w; journal := journal w;
           sent := match sent w with
                   | Some r => Some r
                   | None => Some {| status := code; payload := p |}
                   end |}).

Definition res_send (code : nat) (s : string) : Promise unit :=
  respond code (Text s).

Definition res_json (code : nat) (p : Payload) : Promise unit :=
  respond code p.

(** ** The validation chains of express-validator *)

Record Validator := { negated : bool; test : string → bool }.

Record ValidationChain := {
  field : string;
  message : string;
  negateNext : bool;
  validators : list Validator
}.

Definition check (f m : string) : ValidationChain :=
  {| field := f; message := m; negateNext := false; validators := [] |}.

(** [.not()] negates the validator that follows it. *)
Definition not_ (c : ValidationChain) : ValidationChain :=
  {| field := field c; message := message c; negateNext := true;
     validators := validators c |}.

Definition addValidator (t : string → bool) (c : ValidationChain)
  : ValidationChain :=
  {| field := field c; message := message c; negateNext := false;
     validators := validators c ++ [{| negated := negateNext c; test := t |}] |}.

(** [validator]'s tests, on the string the value is converted to. *)
Definition validator_isLength_min (min : nat) (s : string) : bool :=
  min <=? String.length s.

Definition validator_isEmpty (s : string) : bool :=
  String.length s =? 0.

(** One character of the class [[0-9A-Z]] under the flag [i]. *)
Definition alphanumeric_char (c : Ascii.ascii) : bool :=
  let n := Ascii.nat_of_ascii c in
  ((48 <=? n) && (n <=? 57)) || ((65 <=? n) && (n <=? 90))
  || ((97 <=? n) && (n <=? 122)).

Fixpoint all_chars (p : Ascii.ascii → bool) (s : string) : bool :=
  match s with
  | EmptyString => true
  | String c rest => p c && all_chars p rest
  end.

(** The locale [en-US]: [/^[0-9A-Z]+$/i]. *)
Definition validator_isAlphanumeric (s : string) : bool :=
  match s with
  | EmptyString => false
  | String _ _ => all_chars alphanumeric_char s
  end.

Definition isLength_min (min : nat) := addValidator (validator_isLength_min min).
Definition isEmpty := addValidator validator_isEmpty.
Definition isAlphanumeric := addValidator validator_isAlphanumeric.

(** A value that is [undefined] is validated as the empty string. *)
Definition toString (v : option string) : string := default "" v.

Definition violates (v : Validator) (s : string) : bool :=
  if negated v then test v s else negb (test v s).

(** Running a chain on the body: one error per validator that fails. *)
Definition run_chain (c : ValidationChain) (b : gmap string string)
  : list ValidationError :=
  let v := b !! field c in
  omap (λ t, if violates t (toString v)
             then Some {| value := v; msg := message c; param := field c;
                          location := "body" |}
             else None)
       (validators c).

(** ** Collaborators *)

(** The three ways a passport strategy ends. *)
Inductive Verdict (P : Type) :=
| success (user : P)
| fail
| error (err : string).
Arguments success {P} user.
Arguments fail {P}.
Arguments error {P} err.

Record Collaborators := {
  (** what [passport.js] attaches to the request as [req.user] *)
  Principal : Type;
  (** [Users.hashPassword] of [models.js] *)
  hashPassword : string → string;
  (** [validator]'s [isEmail] *)
  validator_isEmail : string → bool;
  (** the [jwt] strategy of [passport.js], on the [Authorization] header and
      the users collection *)
  jwtStrategy : option string → list UserDoc → Verdict Principal;
  (** mongoose's [omitUndefined] *)
  omitUndefined : bool;
  (** the error with which the storage rejects a call, if it does *)
  fault : Call → Store → option string
}.

Section Server.

Context (env : Collaborators).

(** ** The mongoose models *)

(** A call is journalled, then either rejected by the storage or applied. *)
Definition query {A} (c : Call) (op : Store → A * Store) : Promise A :=
  λ w,
    let j := journal w ++ [c] in
    match fault env c (store w) with
    | Some e => (Rejected e, {| store := store w; journal := j; sent := sent w |})
    | None =>
        let '(a, s) := op (store w) in
        (Fulfilled a, {| store := s; journal := j; sent := sent w |})
    end.

Definition Movies_find : Promise (list MovieDoc) :=
  query Movies_find_call (λ s, (Movies s, s)).

Definition Movies_findOne (q : MovieFilter) : Promise (option MovieDoc) :=
  query (Movies_findOne_call q)
        (λ s, (snd <$> list_find (movie_matches q) (Movies s), s)).

Definition Users_find : Promise (list UserDoc) :=
  query Users_find_call (λ s, (Users s, s)).

Definition Users_findOne (q : UserFilter) : Promise (option UserDoc) :=
  query (Users_findOne_call q) (λ s, (findOne q (Users s), s)).

Definition Users_create (doc : UserDoc) : Promise UserDoc :=
  query (Users_create_call doc)
        (λ s, (doc, {| Users := Users s ++ [doc]; Movies := Movies s |})).

Definition Users_findOneAndUpdate (q : UserFilter) (upd : Update)
  : Promise (option UserDoc) :=
  query (Users_findOneAndUpdate_call q upd)
        (findOneAndUpdate (omitUndefined env) q upd).

Definition Users_findOneAndRemove (q : UserFilter) : Promise (option UserDoc) :=
  query (Users_findOneAndRemove_call q) (findOneAndRemove q).

(** ** The request callbacks *)

(** What a callback sees of the request: the request itself, [req.user] and
    the errors the validation chains have recorded. *)
Record Ctx := {
  req : Request;
  user : option (Principal env);
  errors : list ValidationError
}.

(** String concatenation with a value that may be [undefined]. *)
Definition js_string (v : option string) : string := default "undefined" v.

(** Reading a property of [null]. *)
Definition TypeError (property : string) : string :=
  "TypeError: Cannot read properties of null (reading '" +:+ property +:+ "')".

(** The [.catch] callbacks of [/users] and [/users/:Username] concatenate
    the unbound name [error]: evaluating the argument of [send] throws, so
    the callback ends rejected and no response is sent. *)
Definition ReferenceError : string := "ReferenceError: error is not defined".

Definition get_home (_ : Ctx) : Promise unit :=
  res_send 200 "Hello, welcome to myFlix App.".

Definition get_documentation (_ : Ctx) : Promise unit :=
  respond 200 (File "/public/documentation.html").

Definition get_movies (_ : Ctx) : Promise unit :=
  catch_ (then_ Movies_find (λ movies, res_json 200 (JsonMovies movies)))
         (λ err, res_send 500 ("Error: " +:+ err)).

Definition get_users (_ : Ctx) : Promise unit :=
  catch_ (then_ Users_find (λ users, res_json 200 (JsonUsers users)))
         (λ err, throw ReferenceError).

Definition get_movies_title (title : string) (_ : Ctx) : Promise unit :=
  catch_ (then_ (Movies_findOne (by_Title title))
                (λ movie, res_json 200 (json_movie movie)))
         (λ err, res_send 500 ("Error" +:+ err)).

Definition get_users_Username (Username : string) (_ : Ctx) : Promise unit :=
  catch_ (then_ (Users_findOne (by_userName (Some Username)))
                (λ user, res_json 200 (json_user user)))
         (λ err, throw ReferenceError).

Definition get_genres_genreName (genreName : string) (_ : Ctx) : Promise unit :=
  catch_ (then_ (Movies_findOne (by_Genre_Name genreName))
                (λ movie, match movie with
                          | Some m => res_json 200 (JsonGenre (Genre m))
                          | None => throw (TypeError "Genre")
                          end))
         (λ err, res_send 500 ("Error" +:+ err)).

Definition get_directors_Name (Name : string) (_ : Ctx) : Promise unit :=
  catch_ (then_ (Movies_findOne (by_Director_Name Name))
                (λ movie, match movie with
                          | Some m => res_json 200 (JsonDirector (Director m))
                          | None => throw (TypeError "Director")
                          end))
         (λ err, res_send 500 ("Error" +:+ err)).

(** The chains of [app.post("/users", [...], ...)], in the order given. *)
Definition post_users_checks : list ValidationChain :=
  [ isLength_min 5 (check "userName" "Username is required");
    isAlphanumeric
      (check "userName"
             "Username contains non alphanumeric characters - not allowed.");
    isEmpty (not_ (check "password" "Password is required"));
    addValidator (validator_isEmail env)
      (check "email" "Email does not appear to be valid") ].

Definition post_users (ctx : Ctx) : Promise unit :=
  let b := body (req ctx) in
  match errors ctx with
  | _ :: _ => res_json 422 (JsonErrors (errors ctx))
  | [] =>
      let hashedPassword := hashPassword env <$> b !! "password" in
      catch_
        (then_ (Users_findOne (by_userName (b !! "userName")))
           (λ user,
              match user with
              | Some _ =>
                  res_send 400 (js_string (b !! "userName") +:+ "already exists")
              | None =>
                  catch_
                    (then_ (Users_create
                              {| userName := b !! "userName";
                                 password := hashedPassword;
                                 email := b !! "email";
                                 Birthday := b !! "Birthday";
                                 FavoriteMovies := [] |})
                           (λ user, res_json 201 (JsonUser user)))
                    (λ error, res_send 500 ("Error: " +:+ error))
              end))
        (λ error, res_send 500 ("Error: " +:+ error))
  end.

Definition put_users_Username (Username : string) (ctx : Ctx) : Promise unit :=
  let b := body (req ctx) in
  node_callback
    (Users_findOneAndUpdate (by_userName (Some Username))
       (set_profile (b !! "userName") (b !! "password") (b !! "email")
                    (b !! "birthday")))
    (λ err updatedUser,
       match err with
       | Some e => res_send 500 ("Error: " +:+ e)
       | None => res_json 200 (json_user updatedUser)
       end).

Definition post_favoriteMovies (userName MovieID : string) (_ : Ctx)
  : Promise unit :=
  node_callback
    (Users_findOneAndUpdate (by_userName (Some userName))
       (push_FavoriteMovies MovieID))
    (λ err updatedUser,
       match err with
       | Some e => res_send 500 ("Error: " +:+ e)
       | None => res_json 200 (json_user updatedUser)
       end).

Definition delete_users_userName (userName : string) (_ : Ctx) : Promise unit :=
  catch_ (then_ (Users_findOneAndRemove (by_userName (Some userName)))
                (λ user, match user with
                         | None => res_send 400 (userName +:+ " was not found")
                         | Some _ => res_send 200 (userName +:+ " was deleted")
                         end))
         (λ err, res_send 500 ("Error" +:+ err)).

Definition delete_movies_title (userName title : string) (_ : Ctx)
  : Promise unit :=
  node_callback
    (Users_findOneAndUpdate (by_userName (Some userName))
       (pull_FavoriteMovies title))
    (λ err updatedUser,
       match err with
       | Some e => res_send 500 ("Error" +:+ e)
       | None => res_json 200 (json_user updatedUser)
       end).

(** The callback shared by [/users/favorites/:userName] and
    [/users/favoriteMovies/:userName]. *)
Definition get_favorites (userName : string) (_ : Ctx) : Promise unit :=
  catch_ (then_ (Users_findOne (by_userName (Some userName)))
                (λ user, match user with
                         | Some u => res_json 200 (JsonStrings (FavoriteMovies u))
                         | None => throw (TypeError "FavoriteMovies")
                         end))
         (λ error, res_send 500 ("Error: " +:+ error)).

Definition get_secreturl (_ : Ctx) : Promise unit :=
  res_send 200 "This content is top SECRET".

(** The route registered after the error handler; the documents of this
    file have no path [FavouriteMovies]. *)
Definition put_userName_MovieID (userName MovieID : string) (_ : Ctx)
  : Promise unit :=
  catch_ (then_ (Users_findOneAndUpdate (by_Username userName)
                   (push_FavouriteMovies MovieID))
                (λ user, match user with
                         | Some _ => res_json 200 JsonUndefined
                         | None => throw (TypeError "FavouriteMovies")
                         end))
         (λ error, res_send 500 ("Error: " +:+ error)).

(** ** The route table *)

(** What is registered on a route between the path and the end of the
    [app.METHOD] call. *)
Inductive Middleware :=
| passport_authenticate_jwt
| validation (c : ValidationChain)
| callback (h : Ctx → Promise unit).

Definition stack (r : Route) : list Middleware :=
  match r with
  | GET_home => [callback get_home]
  | GET_documentation => [callback get_documentation]
  | GET_movies => [passport_authenticate_jwt; callback get_movies]
  | GET_users => [passport_authenticate_jwt; callback get_users]
  | GET_movies_title title =>
      [passport_authenticate_jwt; callback (get_movies_title title)]
  | GET_users_Username Username =>
      [passport_authenticate_jwt; callback (get_users_Username Username)]
  | GET_genres_genreName genreName =>
      [passport_authenticate_jwt; callback (get_genres_genreName genreName)]
  | GET_directors_Name Name =>
      [passport_authenticate_jwt; callback (get_directors_Name Name)]
  | POST_users => (validation <$> post_users_checks) ++ [callback post_users]
  | PUT_users_Username Username =>
      [passport_authenticate_jwt; callback (put_users_Username Username)]
  | POST_users_userName_favoriteMovies_MovieID userName MovieID =>
      [passport_authenticate_jwt; callback (post_favoriteMovies userName MovieID)]
  | DELETE_users_userName userName =>
      [passport_authenticate_jwt; callback (delete_users_userName userName)]
  | DELETE_users_userName_movies_title userName title =>
      [callback (delete_movies_title userName title)]
  | GET_users_favorites_userName userName =>
      [passport_authenticate_jwt; callback (get_favorites userName)]
  | GET_users_favoriteMovies_userName userName =>
      [passport_authenticate_jwt; callback (get_favorites userName)]
  | GET_secreturl => [callback get_secreturl]
  | PUT_users_userName_MovieID userName MovieID =>
      [passport_authenticate_jwt; callback (put_userName_MovieID userName MovieID)]
  end.

(** The error-handling middleware of [index.js]. It serves the routes
    registered before it; an error on the route registered after it reaches
    Express's own handler, which answers 500 with an HTML page for the
    error. *)
Definition error_handler (err : string) : Promise unit :=
  res_send 500 "Error founded, fix it!".

Definition finalhandler (err : string) : Promise unit :=
  respond 500 (ErrorPage err).

Definition registered_before_error_handler (r : Route) : bool :=
  match r with
  | PUT_users_userName_MovieID _ _ => false
  | _ => true
  end.

Definition next_error (r : Route) (err : string) : Promise unit :=
  if registered_before_error_handler r then error_handler err
  else finalhandler err.

(** Running the stack of a route. [passport.authenticate("jwt", ...)] ends
    the request with 401 when the strategy fails, passes the strategy's
    error on, and otherwise sets [req.user] and calls the next middleware; a
    validation chain records its errors and calls the next middleware; a
    request callback ends the stack. *)
Fixpoint dispatch (r : Route) (ms : list Middleware) (ctx : Ctx)
  : Promise unit :=
  match ms with
  | [] => res_send 404 "Not Found"
  | passport_authenticate_jwt :: rest =>
      λ w, match jwtStrategy env (authorization (req ctx)) (Users (store w)) with
           | success p =>
               dispatch r rest
                 {| req := req ctx; user := Some p; errors := errors ctx |} w
           | fail => res_send 401 "Unauthorized" w
           | error e => next_error r e w
           end
  | validation c :: rest =>
      dispatch r rest
        {| req := req ctx; user := user ctx;
           errors := errors ctx ++ run_chain c (body (req ctx)) |}
  | callback h :: _ => h ctx
  end.

(** One request against the collections: the collections afterwards, the
    mongoose calls issued and the response, if one was sent. *)
Definition serve (rq : Request) (s : Store) : World :=
  snd (dispatch (route rq) (stack (route rq))
         {| req := rq; user := None; errors := [] |}
         {| store := s; journal := []; sent := None |}).

(** A route is protected when its stack passes through the passport guard. *)
Definition is_guard (m : Middleware) : bool :=
  match m with passport_authenticate_jwt => true | _ => false end.

Definition protected (r : Route) : bool := existsb is_guard (stack r).

Definition is_validation (m : Middleware) : bool :=
  match m with validation _ => true | _ => false end.

Definition validated (r : Route) : bool := existsb is_validation (stack r).

End Server.

Arguments req {env} c.
Arguments user {env} c.
Arguments errors {env} c.

(** ** A concrete deployment

    Stand-ins for the collaborators, to run requests on: a digest that does
    not depend on its input, an e-mail test that looks for an [@], one bearer
    token that the strategy accepts, and a storage that answers every call. *)

Definition contains_at (s : string) : bool :=
  negb (all_chars (λ c, negb (Ascii.eqb c (Ascii.ascii_of_nat 64))) s).

Definition bearer : option string := Some "Bearer token-of-MovieFan1".

Definition testbed : Collaborators :=
  {| Principal := string;
     hashPassword := λ _, "$2b$10$digest";
     validator_isEmail := contains_at;
     jwtStrategy := λ h _, if decide (h = bearer) then success "MovieFan1"
                           else fail;
     omitUndefined := false;
     fault := λ _ _, None |}.

Definition MovieFan1 : UserDoc :=
  {| userName := Some "MovieFan1"; password := Some "$2b$10$digest";
     email := Some "a@b.com"; Birthday := None; FavoriteMovies := [] |}.

(** The same deployment with a strategy that looks the subject of the token
    up in the users collection and hands the record found to the callback:
    it fails when the user is not stored, and its principal follows the
    record. *)
Definition by_lookup : Collaborators :=
  {| Principal := UserDoc;
     hashPassword := λ _, "$2b$10$digest";
     validator_isEmail := contains_at;
     jwtStrategy := λ h us,
       if decide (h = bearer)
       then match findOne (by_userName (Some "MovieFan1")) us with
            | Some u => success u
            | None => fail
            end
       else fail;
     omitUndefined := false;
     fault := λ _ _, None |}.

Definition one_user : Store := {| Users := [MovieFan1]; Movies := [] |}.

(** ** The field rules of registration, in the words of the specification

    Username required and at least 5 characters; Username alphanumeric only;
    Password non-empty; Email syntactically valid. Every rule is looked at on
    its own, and the violations are listed in this order. *)

Definition violation (b : gmap string string) (f m : string) : ValidationError :=
  {| value := b !! f; msg := m; param := f; location := "body" |}.

Definition violated_rules (env : Collaborators) (b : gmap string string)
  : list ValidationError :=
  (if decide (5 ≤ String.length (toString (b !! "userName"))) then []
   else [violation b "userName" "Username is required"])
  ++ (if validator_isAlphanumeric (toString (b !! "userName")) then []
      else [violation b "userName"
              "Username contains non alphanumeric characters - not allowed."])
  ++ (if decide (toString (b !! "password") = "") then
        [violation b "password" "Password is required"]
      else [])
  ++ (if validator_isEmail env (toString (b !! "email")) then []
      else [violation b "email" "Email does not appear to be valid"]).

(** Requests to run on it. *)

Definition fields (u p e : string) : gmap string string :=
  <["userName" := u]> (<["password" := p]> (<["email" := e]> ∅)).

Definition request (r : Route) (header : option string) : Request :=
  {| route := r; authorization := header; body := ∅ |}.

(** Registration under the username of [MovieFan1], with an empty password. *)
Definition register_taken_name_no_password : Request :=
  {| route := POST_users; authorization := None;
     body := fields "MovieFan1" "" "a@b.com" |}.

(** Registration under the username of [MovieFan1], with a valid payload. *)
Definition register_taken_name : Request :=
  {| route := POST_users; authorization := None;
     body := fields "MovieFan1" "hunter2" "a@b.com" |}.

(** Registration with every rule violated. *)
Definition register_all_wrong : Request :=
  {| route := POST_users; authorization := None;
     body := fields "ab!" "" "nope" |}.

(** A profile update that sets the password [hunter2]. *)
Definition update_password : Request :=
  {| route := PUT_users_Username "MovieFan1"; authorization := bearer;
     body := fields "MovieFan1" "hunter2" "a@b.com" |}.

(** A profile update whose payload violates every rule of registration. *)
Definition update_all_wrong : Request :=
  {| route := PUT_users_Username "MovieFan1"; authorization := bearer;
     body := fields "ab!" "" "nope" |}.

Definition MovieFan1_with (l : list string) : UserDoc :=
  with_FavoriteMovies MovieFan1 l.

(** [$push] and [$pull] on the favourites, as opposed to [$set]. *)
Definition favorites_update (upd : Update) : Prop :=
  match upd with
  | push_FavoriteMovies _ | pull_FavoriteMovies _ => True
  | _ => False
  end.

(** The status codes by which a route says that what it was asked for does
    not exist. *)
Definition signals_not_found (r : Response) : bool :=
  (status r =? 404) || (status r =? 400).

(** The world a request starts in. *)
Definition fresh (s : Store) : World :=
  {| store := s; journal := []; sent := None |}.

(** ** Sequences of requests *)

(** Requests served one after the other, each on the collections the one
    before has left. *)
Fixpoint serve_all (env : Collaborators) (rqs : list Request) (s : Store)
  : Store :=
  match rqs with
  | [] => s
  | rq :: rest => serve_all env rest (store (serve env rq s))
  end.

(** The favourites of the user a username addresses, if there is one. *)
Definition favorites_of (name : string) (s : Store) : option (list string) :=
  FavoriteMovies <$> findOne (by_userName (Some name)) (Users s).

(** A request that adds or removes a favourite other than [m], for any
    user. *)
Definition other_reference (m : string) (rq : Request) : Prop :=
  match route rq with
  | POST_users_userName_favoriteMovies_MovieID _ r => r ≠ m
  | DELETE_users_userName_movies_title _ r => r ≠ m
  | _ => False
  end.

(** ** Vocabulary for the properties of the routes *)

(** The record the registration callback passes to [Users.create]. *)
Definition registered_record (env : Collaborators) (b : gmap string string)
  : UserDoc :=
  {| userName := b !! "userName";
     password := hashPassword env <$> b !! "password";
     email := b !! "email";
     Birthday := b !! "Birthday";
     FavoriteMovies := [] |}.

(** No two stored users have the same username. *)
Definition unique_usernames (s : Store) : Prop :=
  NoDup (userName <$> Users s).

(** The routes registered with [app.get]. *)
Definition is_GET (r : Route) : bool :=
  match r with
  | GET_home | GET_documentation | GET_movies | GET_users | GET_movies_title _
  | GET_users_Username _ | GET_genres_genreName _ | GET_directors_Name _
  | GET_users_favorites_userName _ | GET_users_favoriteMovies_userName _
  | GET_secreturl => true
  | _ => false
  end.

(** The routes whose callback issues a mongoose call. *)
Definition queries_storage (r : Route) : bool :=
  match r with
  | GET_home | GET_documentation | GET_secreturl => false
  | _ => true
  end.

(** The two routes whose [.catch] callback throws before it sends. *)
Definition catch_throws (r : Route) : bool :=
  match r with
  | GET_users | GET_users_Username _ => true
  | _ => false
  end.

(** The update a request asks for, and the username it addresses, on the
    three routes that update a user whose documents this file writes. *)
Definition update_of (rq : Request) : option (string * Update) :=
  match route rq with
  | PUT_users_Username n =>
      let b := body rq in
      Some (n, set_profile (b !! "userName") (b !! "password") (b !! "email")
                 (b !! "birthday"))
  | POST_users_userName_favoriteMovies_MovieID n m => Some (n, push_FavoriteMovies m)
  | DELETE_users_userName_movies_title n m => Some (n, pull_FavoriteMovies m)
  | _ => None
  end.

(** The routes registered with [app.put]. *)
Definition is_PUT (r : Route) : bool :=
  match r with
  | PUT_users_Username _ | PUT_users_userName_MovieID _ _ => true
  | _ => false
  end.

(** The paths of a user other than the favourites. *)
Definition profile (u : UserDoc)
  : option string * option string * option string * option string :=
  (userName u, password u, email u, Birthday u).

(** The four ways a request leaves the collections: as they were; with the
    record of a registration answered 201 added at the end; with the first
    record of the addressed username updated, answered 200; or with that
    record removed by a deregistration answered 200. *)
Definition change (env : Collaborators) (rq : Request) (s : Store) (w : World)
  : Prop :=
  (store w = s
   ∧ (route rq = POST_users → status <$> sent w ≠ Some 201)
   ∧ (∀ n, route rq = DELETE_users_userName n → status <$> sent w ≠ Some 200))
  ∨ (route rq = POST_users
     ∧ violated_rules env (body rq) = []
     ∧ findOne (by_userName (body rq !! "userName")) (Users s) = None
     ∧ store w
       = {| Users := Users s ++ [registered_record env (body rq)];
            Movies := Movies s |}
     ∧ status <$> sent w = Some 201)
  ∨ (∃ n upd i u,
       update_of rq = Some (n, upd)
       ∧ list_find (user_matches (by_userName (Some n))) (Users s) = Some (i, u)
       ∧ store w
         = {| Users := <[i := apply_update (omitUndefined env) upd u]> (Users s);
              Movies := Movies s |}
       ∧ status <$> sent w = Some 200)
  ∨ (∃ n i u,
       route rq = DELETE_users_userName n
       ∧ list_find (user_matches (by_userName (Some n))) (Users s) = Some (i, u)
       ∧ store w = {| Users := delete i (Users s); Movies := Movies s |}
       ∧ status <$> sent w = Some 200).

(** A character of the class [[0-9A-Z]] under the flag [i], by its code. *)
Definition digit_or_letter (c : Ascii.ascii) : Prop :=
  let n := Ascii.nat_of_ascii c in
  48 ≤ n ≤ 57 ∨ 65 ≤ n ≤ 90 ∨ 97 ≤ n ≤ 122.

(** The status codes the callbacks and the guard send. *)
Definition sent_statuses : list nat := [200; 201; 400; 401; 422; 500].

(** Registration of a username nobody has. *)
Definition register_new : Request :=
  {| route := POST_users; authorization := None;
     body := fields "NewUser01" "hunter2" "new@b.com" |}.

(** A storage that rejects every call. *)
Definition outage : Collaborators :=
  {| Principal := string;
     hashPassword := λ _, "$2b$10$digest";
     validator_isEmail := contains_at;
     jwtStrategy := λ h _, if decide (h = bearer) then success "MovieFan1"
                           else fail;
     omitUndefined := false;
     fault := λ _ _, Some "MongoNetworkError: connection closed" |}.

(** A strategy that ends in an error, as when its own lookup is rejected. *)
Definition broken_strategy : Collaborators :=
  {| Principal := string;
     hashPassword := λ _, "$2b$10$digest";
     validator_isEmail := contains_at;
     jwtStrategy := λ _ _, error "MongoNetworkError: connection closed";
     omitUndefined := false;
     fault := λ _ _, None |}.

Definition Cinephile : UserDoc :=
  {| userName := Some "Cinephile"; password := Some "$2b$10$digest";
     email := Some "c@d.org"; Birthday := None; FavoriteMovies := ["abc123"] |}.

Definition two_users : Store :=
  {| Users := [MovieFan1; Cinephile]; Movies := [] |}.

(** A profile update that gives [Cinephile] the username of [MovieFan1]. *)
Definition rename_to_taken : Request :=
  {| route := PUT_users_Username "Cinephile"; authorization := bearer;
     body := fields "MovieFan1" "hunter2" "c@d.org" |}.

(** A profile update for a username nobody has. *)
Definition update_ghost : Request :=
  {| route := PUT_users_Username "ghost"; authorization := bearer;
     body := fields "ghost" "hunter2" "g@h.org" |}.

Definition Lost : MovieDoc :=
  {| Title := "Lost"; Description := "Survivors of a plane crash";
     Genre := {| Genre_Name := "Drama"; Genre_Description := "Serious stories" |};
     Director := {| Director_Name := "Alan Ball"; Director_Bio := "Born 1957" |} |}.

Definition with_movies : Store := {| Users := [MovieFan1]; Movies := [Lost] |}.

(** * Properties *)

Section Properties.

Context (env : Collaborators).

Implicit Types (rq : Request) (s : Store) (w : World).

Lemma serve_unfold rq s :
  serve env rq s =
  snd (dispatch env (route rq) (stack env (route rq))
         {| req := rq; user := None; errors := [] |} (fresh s)).
Proof. reflexivity. Qed.

(** A failing strategy ends the request at the guard, whatever follows it. *)
Lemma guard_fail r rest (ctx : Ctx env) w :
  jwtStrategy env (authorization (req ctx)) (Users (store w)) = fail →
  dispatch env r (passport_authenticate_jwt env :: rest) ctx w
  = res_send 401 "Unauthorized" w.
Proof. intros H. simpl. by rewrite H. Qed.

(** An error of the strategy goes to the error handler of the route. *)
Lemma guard_error r rest (ctx : Ctx env) w e :
  jwtStrategy env (authorization (req ctx)) (Users (store w)) = error e →
  dispatch env r (passport_authenticate_jwt env :: rest) ctx w
  = next_error r e w.
Proof. intros H. simpl. by rewrite H. Qed.

Lemma next_error_store r e s : store (snd (next_error r e (fresh s))) = s.
Proof. unfold next_error. by destruct (registered_before_error_handler r). Qed.

(** An accepting strategy hands the request to the rest of the stack. *)
Lemma guard_success r rest (ctx : Ctx env) w p :
  jwtStrategy env (authorization (req ctx)) (Users (store w)) = success p →
  dispatch env r (passport_authenticate_jwt env :: rest) ctx w
  = dispatch env r rest
      {| req := req ctx; user := Some p; errors := errors ctx |} w.
Proof. intros H. simpl. by rewrite H. Qed.

(** The stack of a protected route is the guard followed by one callback. *)
Lemma protected_stack r :
  protected env r = true →
  ∃ h, stack env r = [passport_authenticate_jwt env; callback env h].
Proof.
  destruct r; intros H; try (cbv in H; discriminate H); simpl; eauto.
Qed.

(** Validation chains only record errors; the callback then runs with all
    of them. *)
Lemma dispatch_validation r cs h (ctx : Ctx env) :
  dispatch env r ((validation env <$> cs) ++ [callback env h]) ctx
  = h {| req := req ctx; user := user ctx;
         errors := errors ctx ++ concat ((λ c, run_chain c (body (req ctx))) <$> cs) |}.
Proof.
  revert ctx. induction cs as [|c cs IH]; intros ctx.
  - simpl. rewrite app_nil_r. by destruct ctx.
  - simpl. rewrite IH. simpl. by rewrite app_assoc.
Qed.

Lemma length_zero_empty (x : string) : (String.length x =? 0) = bool_decide (x = "").
Proof. by destruct x. Qed.

(** The errors the four chains record are the violated rules. *)
Lemma post_users_checks_violations (b : gmap string string) :
  concat ((λ c, run_chain c b) <$> post_users_checks env) = violated_rules env b.
Proof.
  unfold violated_rules, post_users_checks, run_chain, violates, violation.
  simpl. unfold validator_isLength_min, validator_isEmpty.
  rewrite length_zero_empty.
  repeat case_decide; repeat case_bool_decide; try done; try lia;
    repeat match goal with
    | |- context [Nat.leb ?a ?b] => destruct (Nat.leb_spec a b); try lia
    end; simpl;
    destruct (validator_isAlphanumeric _), (validator_isEmail env _); done.
Qed.

(** Registration runs its callback on the violated rules. *)
Lemma serve_post_users rq s :
  route rq = POST_users →
  serve env rq s
  = snd (post_users env
           {| req := rq; user := None; errors := violated_rules env (body rq) |}
           (fresh s)).
Proof.
  intros Hr. rewrite serve_unfold, Hr.
  change (stack env POST_users)
    with ((validation env <$> post_users_checks env)
            ++ [callback env (post_users env)]).
  rewrite dispatch_validation. cbn [req user errors app].
  by rewrite post_users_checks_violations.
Qed.

(** C2. A request to a protected route whose bearer credential the strategy
    does not accept (missing, malformed, rejected or expired) is answered
    with 401; nothing that follows the guard on the route runs, no mongoose
    call is issued and the collections are as before. *)
Theorem C2_protected_route_unauthorized rq s :
  protected env (route rq) = true →
  jwtStrategy env (authorization rq) (Users s) = fail →
  serve env rq s
  = {| store := s; journal := [];
       sent := Some {| status := 401; payload := Text "Unauthorized" |} |}
  ∧ (∃ h, stack env (route rq) = [passport_authenticate_jwt env; callback env h])
  ∧ (∀ rest, snd (dispatch env (route rq) (passport_authenticate_jwt env :: rest)
                    {| req := rq; user := None; errors := [] |} (fresh s))
             = {| store := s; journal := [];
                  sent := Some {| status := 401; payload := Text "Unauthorized" |} |}).
Proof.
  intros Hp Hf.
  assert (Hrest : ∀ rest,
    snd (dispatch env (route rq) (passport_authenticate_jwt env :: rest)
           {| req := rq; user := None; errors := [] |} (fresh s))
    = {| store := s; journal := [];
         sent := Some {| status := 401; payload := Text "Unauthorized" |} |}).
  { intros rest. by rewrite guard_fail. }
  destruct (protected_stack _ Hp) as [h Hs].
  split; [|split]; [|by eauto|done].
  rewrite serve_unfold, Hs. apply Hrest.
Qed.

(** Membership in the one-entry lists the rules contribute. *)
Lemma elem_of_unless {A} (c : bool) (x e : A) :
  e ∈ (if c then [] else [x]) ↔ e = x ∧ c = false.
Proof.
  destruct c.
  - rewrite elem_of_nil. split; [done|]. by intros [_ H].
  - rewrite list_elem_of_singleton. split; [done|]. by intros [H _].
Qed.

Lemma elem_of_unless_decide {A} (P : Prop) `{!Decision P} (x e : A) :
  e ∈ (if decide P then [] else [x]) ↔ e = x ∧ ¬ P.
Proof.
  case_decide.
  - rewrite elem_of_nil. split; [done|]. by intros [_ H'].
  - rewrite list_elem_of_singleton. split; [done|]. by intros [H' _].
Qed.

Lemma elem_of_when_decide {A} (P : Prop) `{!Decision P} (x e : A) :
  e ∈ (if decide P then [x] else []) ↔ e = x ∧ P.
Proof.
  case_decide.
  - rewrite list_elem_of_singleton. split; [done|]. by intros [H' _].
  - rewrite elem_of_nil. split; [done|]. by intros [_ H'].
Qed.

(** An entry is listed exactly when its rule is violated. *)
Lemma violated_rules_elem (b : gmap string string) e :
  e ∈ violated_rules env b ↔
    (e = violation b "userName" "Username is required"
     ∧ String.length (toString (b !! "userName")) < 5)
    ∨ (e = violation b "userName"
             "Username contains non alphanumeric characters - not allowed."
       ∧ validator_isAlphanumeric (toString (b !! "userName")) = false)
    ∨ (e = violation b "password" "Password is required"
       ∧ toString (b !! "password") = "")
    ∨ (e = violation b "email" "Email does not appear to be valid"
       ∧ validator_isEmail env (toString (b !! "email")) = false).
Proof.
  unfold violated_rules.
  rewrite !elem_of_app, elem_of_unless_decide, elem_of_when_decide,
    !elem_of_unless, Nat.nle_gt.
  reflexivity.
Qed.

(** C3. A registration payload that violates one or more field rules is
    answered with 422 and the list of every violated rule: an entry is in
    the list exactly when its rule is violated. No mongoose call is issued
    and the collections are as before. *)
Theorem C3_registration_lists_every_violation rq s :
  route rq = POST_users →
  violated_rules env (body rq) ≠ [] →
  let b := body rq in
  serve env rq s
  = {| store := s; journal := [];
       sent := Some {| status := 422;
                       payload := JsonErrors (violated_rules env b) |} |}
  ∧ (String.length (toString (b !! "userName")) < 5 ↔
       violation b "userName" "Username is required" ∈ violated_rules env b)
  ∧ (validator_isAlphanumeric (toString (b !! "userName")) = false ↔
       violation b "userName"
         "Username contains non alphanumeric characters - not allowed."
         ∈ violated_rules env b)
  ∧ (toString (b !! "password") = "" ↔
       violation b "password" "Password is required" ∈ violated_rules env b)
  ∧ (validator_isEmail env (toString (b !! "email")) = false ↔
       violation b "email" "Email does not appear to be valid"
         ∈ violated_rules env b).
Proof.
  intros Hr Hv b. subst b. split.
  - rewrite (serve_post_users _ _ Hr).
    unfold post_users. cbn [req errors].
    by destruct (violated_rules env (body rq)) as [|e l].
  - repeat split; rewrite violated_rules_elem; unfold violation;
      intros H; auto 10; decompose [or and] H; done.
Qed.

(** The first match of a filter, when some document matches. *)
Lemma findOne_present q (l : list UserDoc) u :
  u ∈ l → user_matches q u → ∃ v, findOne q l = Some v ∧ user_matches q v.
Proof.
  intros Hin Hm.
  destruct (list_find_elem_of (user_matches q) l u Hin Hm) as [[i v] Hv].
  exists v. unfold findOne. rewrite Hv. split; [done|].
  by apply list_find_Some in Hv as (_ & ? & _).
Qed.

(** What registration does once the payload has passed the rules. *)
Lemma post_users_valid (ctx : Ctx env) s :
  errors ctx = [] →
  post_users env ctx (fresh s)
  = let b := body (req ctx) in
    let lookup := Users_findOne_call (by_userName (b !! "userName")) in
    let doc := {| userName := b !! "userName";
                  password := hashPassword env <$> b !! "password";
                  email := b !! "email"; Birthday := b !! "Birthday";
                  FavoriteMovies := [] |} in
    match fault env lookup s with
    | Some e =>
        (Fulfilled (),
         {| store := s; journal := [lookup];
            sent := Some {| status := 500; payload := Text ("Error: " +:+ e) |} |})
    | None =>
        match findOne (by_userName (b !! "userName")) (Users s) with
        | Some _ =>
            (Fulfilled (),
             {| store := s; journal := [lookup];
                sent := Some {| status := 400;
                                payload := Text (js_string (b !! "userName")
                                                 +:+ "already exists") |} |})
        | None =>
            match fault env (Users_create_call doc) s with
            | Some e =>
                (Fulfilled (),
                 {| store := s; journal := [lookup; Users_create_call doc];
                    sent := Some {| status := 500;
                                    payload := Text ("Error: " +:+ e) |} |})
            | None =>
                (Fulfilled (),
                 {| store := {| Users := Users s ++ [doc]; Movies := Movies s |};
                    journal := [lookup; Users_create_call doc];
                    sent := Some {| status := 201; payload := JsonUser doc |} |})
            end
        end
    end.
Proof.
  intros He. unfold post_users. rewrite He. cbn zeta.
  unfold catch_, then_, Users_findOne, Users_create, query, res_send, res_json,
    respond, fresh. cbn [store journal sent app].
  destruct (fault env (Users_findOne_call _) s) as [e|]; [done|].
  destruct (findOne _ (Users s)) as [v|]; [done|].
  cbn [store journal sent app].
  by destruct (fault env (Users_create_call _) s) as [e|].
Qed.

(** C4, as amended. When the payload passes the field rules and the storage
    answers the lookup, registration under a username that a stored user
    already has is answered with 400, and the only mongoose call is the
    lookup: no record is created. Whenever registration does issue the
    insertion, the lookup by that username came first and found nothing. *)
Theorem C4_taken_username_conflict rq s :
  route rq = POST_users →
  (∀ name,
      body rq !! "userName" = Some name →
      (∃ u, u ∈ Users s ∧ userName u = Some name) →
      violated_rules env (body rq) = [] →
      fault env (Users_findOne_call (by_userName (Some name))) s = None →
      serve env rq s
      = {| store := s;
           journal := [Users_findOne_call (by_userName (Some name))];
           sent := Some {| status := 400;
                           payload := Text (name +:+ "already exists") |} |})
  ∧ (∀ doc,
      Users_create_call doc ∈ journal (serve env rq s) →
      journal (serve env rq s)
      = [Users_findOne_call (by_userName (body rq !! "userName"));
         Users_create_call doc]
      ∧ findOne (by_userName (body rq !! "userName")) (Users s) = None).
Proof.
  intros Hr. rewrite (serve_post_users _ _ Hr). split.
  - intros name Hn (u & Hin & Hu) Hv Hf.
    rewrite Hv, post_users_valid by done. cbn [req body].
    rewrite Hn, Hf.
    destruct (findOne_present (by_userName (Some name)) _ u Hin Hu)
      as (v & -> & _). done.
  - intros doc.
    destruct (violated_rules env (body rq)) as [|e l] eqn:Hv.
    + rewrite post_users_valid by done. cbn [req body].
      destruct (fault env (Users_findOne_call _) s) as [e|].
      { cbn. intros Hin. apply list_elem_of_singleton in Hin. discriminate Hin. }
      destruct (findOne _ (Users s)) as [v|].
      { cbn. intros Hin. apply list_elem_of_singleton in Hin. discriminate Hin. }
      destruct (fault env (Users_create_call _) s) as [e|]; cbn;
        intros Hin; apply elem_of_cons in Hin as [Hin|Hin]; try discriminate Hin;
        apply list_elem_of_singleton in Hin; injection Hin as <-; done.
    + unfold post_users. cbn. intros Hin. by apply elem_of_nil in Hin.
Qed.

(** ** The favourites routes *)

(** An accepted request to a protected route runs the route's callback. *)
Lemma serve_guarded rq s p h :
  stack env (route rq) = [passport_authenticate_jwt env; callback env h] →
  jwtStrategy env (authorization rq) (Users s) = success p →
  serve env rq s
  = snd (h {| req := rq; user := Some p; errors := [] |} (fresh s)).
Proof.
  intros Hs Hj. rewrite serve_unfold, Hs.
  by rewrite (guard_success _ _ _ _ p).
Qed.

(** The callback of the two [findOneAndUpdate] routes on favourites, when
    the storage answers: the document after the update, or [null], with 200. *)
Lemma post_favoriteMovies_run name m (ctx : Ctx env) s :
  fault env (Users_findOneAndUpdate_call (by_userName (Some name))
               (push_FavoriteMovies m)) s = None →
  snd (post_favoriteMovies env name m ctx (fresh s))
  = let r := findOneAndUpdate (omitUndefined env) (by_userName (Some name))
               (push_FavoriteMovies m) s in
    {| store := snd r;
       journal := [Users_findOneAndUpdate_call (by_userName (Some name))
                     (push_FavoriteMovies m)];
       sent := Some {| status := 200; payload := json_user (fst r) |} |}.
Proof.
  intros Hf. unfold post_favoriteMovies, node_callback, Users_findOneAndUpdate,
    query, fresh. cbn [store journal sent app]. rewrite Hf.
  by destruct (findOneAndUpdate _ _ _ s) as [a s'].
Qed.

Lemma delete_movies_title_run name m (ctx : Ctx env) s :
  fault env (Users_findOneAndUpdate_call (by_userName (Some name))
               (pull_FavoriteMovies m)) s = None →
  snd (delete_movies_title env name m ctx (fresh s))
  = let r := findOneAndUpdate (omitUndefined env) (by_userName (Some name))
               (pull_FavoriteMovies m) s in
    {| store := snd r;
       journal := [Users_findOneAndUpdate_call (by_userName (Some name))
                     (pull_FavoriteMovies m)];
       sent := Some {| status := 200; payload := json_user (fst r) |} |}.
Proof.
  intros Hf. unfold delete_movies_title, node_callback, Users_findOneAndUpdate,
    query, fresh. cbn [store journal sent app]. rewrite Hf.
  by destruct (findOneAndUpdate _ _ _ s) as [a s'].
Qed.

Lemma get_favorites_run name (ctx : Ctx env) s :
  fault env (Users_findOne_call (by_userName (Some name))) s = None →
  snd (get_favorites env name ctx (fresh s))
  = {| store := s;
       journal := [Users_findOne_call (by_userName (Some name))];
       sent := Some
         match findOne (by_userName (Some name)) (Users s) with
         | Some u => {| status := 200; payload := JsonStrings (FavoriteMovies u) |}
         | None => {| status := 500;
                      payload := Text ("Error: " +:+ TypeError "FavoriteMovies") |}
         end |}.
Proof.
  intros Hf. unfold get_favorites, catch_, then_, Users_findOne, query, fresh.
  cbn [store journal sent app]. rewrite Hf.
  by destruct (findOne _ (Users s)) as [u|].
Qed.

(** The update of the first match, spelled out. *)
Lemma findOneAndUpdate_found omit q upd s i u :
  list_find (user_matches q) (Users s) = Some (i, u) →
  findOneAndUpdate omit q upd s
  = (Some (apply_update omit upd u),
     {| Users := <[i := apply_update omit upd u]> (Users s);
        Movies := Movies s |}).
Proof. intros H. unfold findOneAndUpdate. by rewrite H. Qed.

Lemma findOneAndUpdate_absent omit q upd s :
  findOne q (Users s) = None → findOneAndUpdate omit q upd s = (None, s).
Proof.
  unfold findOne, findOneAndUpdate.
  by destruct (list_find _ (Users s)) as [[i u]|].
Qed.

(** C8. The route that removes a favourite has no guard on its stack: when
    the storage answers, the callback runs and responds 200 with the user
    as updated, and neither the response nor the update depends on the
    [Authorization] header of the request. *)
Theorem C8_remove_favorite_unguarded rq s name title :
  route rq = DELETE_users_userName_movies_title name title →
  fault env (Users_findOneAndUpdate_call (by_userName (Some name))
               (pull_FavoriteMovies title)) s = None →
  protected env (route rq) = false
  ∧ serve env rq s
    = {| store := snd (findOneAndUpdate (omitUndefined env)
                         (by_userName (Some name)) (pull_FavoriteMovies title) s);
         journal := [Users_findOneAndUpdate_call (by_userName (Some name))
                       (pull_FavoriteMovies title)];
         sent := Some {| status := 200;
                         payload := json_user
                           (fst (findOneAndUpdate (omitUndefined env)
                                   (by_userName (Some name))
                                   (pull_FavoriteMovies title) s)) |} |}
  ∧ (∀ header,
       serve env {| route := route rq; authorization := header; body := body rq |} s
       = serve env rq s).
Proof.
  intros Hr Hf. rewrite Hr. split; [done|].
  assert (Hany : ∀ rq', route rq' = DELETE_users_userName_movies_title name title →
    serve env rq' s
    = {| store := snd (findOneAndUpdate (omitUndefined env)
                         (by_userName (Some name)) (pull_FavoriteMovies title) s);
         journal := [Users_findOneAndUpdate_call (by_userName (Some name))
                       (pull_FavoriteMovies title)];
         sent := Some {| status := 200;
                         payload := json_user
                           (fst (findOneAndUpdate (omitUndefined env)
                                   (by_userName (Some name))
                                   (pull_FavoriteMovies title) s)) |} |}).
  { intros rq' Hr'. rewrite serve_unfold, Hr'. cbn [stack dispatch].
    by rewrite delete_movies_title_run. }
  split; [by apply Hany|].
  intros header. by rewrite !Hany.
Qed.

(** C9. For a stored user, adding a favourite appends the reference at the
    end of [FavoriteMovies] whether or not it is there already, so that a
    reference already present occurs once more; removing a favourite leaves
    the array without any occurrence of the reference. *)
Theorem C9_push_appends_pull_removes_all s name m i u :
  list_find (user_matches (by_userName (Some name))) (Users s) = Some (i, u) →
  (∀ rq p,
     route rq = POST_users_userName_favoriteMovies_MovieID name m →
     jwtStrategy env (authorization rq) (Users s) = success p →
     fault env (Users_findOneAndUpdate_call (by_userName (Some name))
                  (push_FavoriteMovies m)) s = None →
     let u' := with_FavoriteMovies u (FavoriteMovies u ++ [m]) in
     store (serve env rq s)
       = {| Users := <[i := u']> (Users s); Movies := Movies s |}
     ∧ sent (serve env rq s) = Some {| status := 200; payload := JsonUser u' |}
     ∧ length (filter (λ x, x = m) (FavoriteMovies u'))
       = S (length (filter (λ x, x = m) (FavoriteMovies u))))
  ∧ (∀ rq,
     route rq = DELETE_users_userName_movies_title name m →
     fault env (Users_findOneAndUpdate_call (by_userName (Some name))
                  (pull_FavoriteMovies m)) s = None →
     let u' := with_FavoriteMovies u (filter (λ x, x ≠ m) (FavoriteMovies u)) in
     store (serve env rq s)
       = {| Users := <[i := u']> (Users s); Movies := Movies s |}
     ∧ sent (serve env rq s) = Some {| status := 200; payload := JsonUser u' |}
     ∧ (m ∉ FavoriteMovies u')
     ∧ (∀ x, x ≠ m → (x ∈ FavoriteMovies u' ↔ x ∈ FavoriteMovies u))).
Proof.
  intros Hfind. split.
  - intros rq p Hr Hj Hf u'.
    rewrite (serve_guarded rq s p (post_favoriteMovies env name m));
      [|by rewrite Hr|done].
    rewrite post_favoriteMovies_run by done.
    rewrite (findOneAndUpdate_found _ _ _ _ _ _ Hfind). cbn.
    split; [done|]. split; [done|].
    rewrite filter_app, length_app. cbn.
    rewrite decide_True by done. cbn. lia.
  - intros rq Hr Hf u'.
    rewrite serve_unfold, Hr. cbn [stack dispatch].
    rewrite delete_movies_title_run by done.
    rewrite (findOneAndUpdate_found _ _ _ _ _ _ Hfind). cbn.
    split; [done|]. split; [done|]. split.
    + intros Hin. apply list_elem_of_filter in Hin. by destruct Hin as [Hne Hin].
    + intros x Hx. rewrite list_elem_of_filter. split.
      * intros [_ Hin]. exact Hin.
      * intros Hin. split; [exact Hx|exact Hin].
Qed.

(** C5, as amended. When the storage answers: for a username that a stored
    user has, adding and removing a favourite respond 200 with the updated
    record and listing responds 200 with the current array; for a username
    that matches no stored user, adding and removing respond 200 with the
    body [null] and leave the collections as they were. *)
Theorem C5_favorites_found_or_null s name m :
  (∀ c, fault env c s = None) →
  (∀ i u,
     list_find (user_matches (by_userName (Some name))) (Users s) = Some (i, u) →
     (∀ rq p,
        route rq = POST_users_userName_favoriteMovies_MovieID name m →
        jwtStrategy env (authorization rq) (Users s) = success p →
        let u' := with_FavoriteMovies u (FavoriteMovies u ++ [m]) in
        serve env rq s
        = {| store := {| Users := <[i := u']> (Users s); Movies := Movies s |};
             journal := [Users_findOneAndUpdate_call (by_userName (Some name))
                           (push_FavoriteMovies m)];
             sent := Some {| status := 200; payload := JsonUser u' |} |})
     ∧ (∀ rq,
        route rq = DELETE_users_userName_movies_title name m →
        let u' := with_FavoriteMovies u (filter (λ x, x ≠ m) (FavoriteMovies u)) in
        serve env rq s
        = {| store := {| Users := <[i := u']> (Users s); Movies := Movies s |};
             journal := [Users_findOneAndUpdate_call (by_userName (Some name))
                           (pull_FavoriteMovies m)];
             sent := Some {| status := 200; payload := JsonUser u' |} |})
     ∧ (∀ rq p,
        route rq = GET_users_favorites_userName name →
        jwtStrategy env (authorization rq) (Users s) = success p →
        serve env rq s
        = {| store := s;
             journal := [Users_findOne_call (by_userName (Some name))];
             sent := Some {| status := 200;
                             payload := JsonStrings (FavoriteMovies u) |} |}))
  ∧ (findOne (by_userName (Some name)) (Users s) = None →
     (∀ rq p,
        route rq = POST_users_userName_favoriteMovies_MovieID name m →
        jwtStrategy env (authorization rq) (Users s) = success p →
        serve env rq s
        = {| store := s;
             journal := [Users_findOneAndUpdate_call (by_userName (Some name))
                           (push_FavoriteMovies m)];
             sent := Some {| status := 200; payload := JsonNull |} |})
     ∧ (∀ rq,
        route rq = DELETE_users_userName_movies_title name m →
        serve env rq s
        = {| store := s;
             journal := [Users_findOneAndUpdate_call (by_userName (Some name))
                           (pull_FavoriteMovies m)];
             sent := Some {| status := 200; payload := JsonNull |} |})).
Proof.
  intros Hf. split.
  - intros i u Hfind. split; [|split].
    + intros rq p Hr Hj u'.
      rewrite (serve_guarded rq s p (post_favoriteMovies env name m));
        [|by rewrite Hr|done].
      rewrite post_favoriteMovies_run by done.
      by rewrite (findOneAndUpdate_found _ _ _ _ _ _ Hfind).
    + intros rq Hr u'. rewrite serve_unfold, Hr. cbn [stack dispatch].
      rewrite delete_movies_title_run by done.
      by rewrite (findOneAndUpdate_found _ _ _ _ _ _ Hfind).
    + intros rq p Hr Hj.
      rewrite (serve_guarded rq s p (get_favorites env name));
        [|by rewrite Hr|done].
      rewrite get_favorites_run by done.
      unfold findOne. by rewrite Hfind.
  - intros Hnone. split.
    + intros rq p Hr Hj.
      rewrite (serve_guarded rq s p (post_favoriteMovies env name m));
        [|by rewrite Hr|done].
      rewrite post_favoriteMovies_run by done.
      by rewrite findOneAndUpdate_absent.
    + intros rq Hr. rewrite serve_unfold, Hr. cbn [stack dispatch].
      rewrite delete_movies_title_run by done.
      by rewrite findOneAndUpdate_absent.
Qed.

(** ** Genres and directors *)

Lemma list_find_none_movies q (l : list MovieDoc) :
  (∀ m, m ∈ l → ¬ movie_matches q m) → list_find (movie_matches q) l = None.
Proof. intros H. apply list_find_None, Forall_forall. exact H. Qed.

(** The callback of a lookup that dereferences the movie found: with no
    match, both the rejected call and the read of a property of [null] end
    in the [.catch] branch. *)
Lemma deref_null_run q (ok : MovieDoc → Promise unit) property s :
  list_find (movie_matches q) (Movies s) = None →
  snd (catch_
         (then_ (Movies_findOne env q)
                (λ movie, match movie with
                          | Some m => ok m
                          | None => throw (TypeError property)
                          end))
         (λ err, res_send 500 ("Error" +:+ err)) (fresh s))
  = {| store := s; journal := [Movies_findOne_call q];
       sent := Some {| status := 500;
                       payload := Text ("Error" +:+
                         default (TypeError property)
                                 (fault env (Movies_findOne_call q) s)) |} |}.
Proof.
  intros Hnone. unfold catch_, then_, Movies_findOne, query, fresh.
  cbn [store journal sent app]. rewrite Hnone.
  by destruct (fault env (Movies_findOne_call q) s) as [e|].
Qed.

(** C10. An authenticated request for a genre or a director whose name no
    stored movie has is answered with 500: the callback reads a property of
    [null] and the [.catch] branch sends the error. The collections are as
    before. *)
Theorem C10_unmatched_genre_or_director_is_500 rq s p name :
  jwtStrategy env (authorization rq) (Users s) = success p →
  (route rq = GET_genres_genreName name →
   (∀ m, m ∈ Movies s → Genre_Name (Genre m) ≠ name) →
   serve env rq s
   = {| store := s; journal := [Movies_findOne_call (by_Genre_Name name)];
        sent := Some {| status := 500;
                        payload := Text ("Error" +:+
                          default (TypeError "Genre")
                            (fault env (Movies_findOne_call (by_Genre_Name name)) s))
                     |} |})
  ∧ (route rq = GET_directors_Name name →
     (∀ m, m ∈ Movies s → Director_Name (Director m) ≠ name) →
     serve env rq s
     = {| store := s; journal := [Movies_findOne_call (by_Director_Name name)];
          sent := Some {| status := 500;
                          payload := Text ("Error" +:+
                            default (TypeError "Director")
                              (fault env (Movies_findOne_call (by_Director_Name name)) s))
                       |} |}).
Proof.
  intros Hj. split; intros Hr Hno.
  - rewrite (serve_guarded rq s p (get_genres_genreName env name));
      [|by rewrite Hr|done].
    unfold get_genres_genreName. rewrite deref_null_run; [done|].
    by apply list_find_none_movies.
  - rewrite (serve_guarded rq s p (get_directors_Name env name));
      [|by rewrite Hr|done].
    unfold get_directors_Name. rewrite deref_null_run; [done|].
    by apply list_find_none_movies.
Qed.

(** ** Add, remove, list *)

Section find_insert.

Context {A : Type} (P : A → Prop) `{!∀ x, Decision (P x)}.

(** Replacing the first match by another match keeps it the first match. *)
Lemma list_find_insert_first (l : list A) i u u' :
  list_find P l = Some (i, u) → P u' →
  list_find P (<[i := u']> l) = Some (i, u').
Proof.
  intros (Hi & Hu & Hlt)%list_find_Some Hu'. apply list_find_Some.
  split; [|split; [done|]].
  - apply list_lookup_insert_eq. by eapply lookup_lt_Some.
  - intros j y Hj Hji. rewrite list_lookup_insert_ne in Hj by lia. eauto.
Qed.

(** Replacing a document that does not match by one that does not match
    leaves the first match where it is. *)
Lemma list_find_insert_other (l : list A) i u u' :
  l !! i = Some u → ¬ P u → ¬ P u' →
  list_find P (<[i := u']> l) = list_find P l.
Proof.
  intros Hi Hu Hu'.
  destruct (list_find P l) as [[j x]|] eqn:Hfind.
  - apply list_find_Some in Hfind as (Hj & Hx & Hlt). apply list_find_Some.
    assert (i ≠ j) by (intros ->; congruence).
    split; [|split; [done|]].
    + by rewrite list_lookup_insert_ne.
    + intros k y Hk Hkj. destruct (decide (k = i)) as [->|Hne].
      * rewrite list_lookup_insert_eq in Hk by (by eapply lookup_lt_Some).
        by injection Hk as <-.
      * rewrite list_lookup_insert_ne in Hk by done. eauto.
  - apply list_find_None in Hfind. apply list_find_None.
    by apply Forall_insert.
Qed.

End find_insert.

(** [$push] and [$pull] on the favourites leave the username alone. *)
Lemma favorites_update_userName omit upd u :
  favorites_update upd → userName (apply_update omit upd u) = userName u.
Proof. by destruct upd. Qed.

(** The favourites of [name] after a favourites update addressed to [n]. *)
Lemma favorites_of_update omit n upd name s :
  favorites_update upd →
  favorites_of name (snd (findOneAndUpdate omit (by_userName (Some n)) upd s))
  = if decide (n = name)
    then (λ u, FavoriteMovies (apply_update omit upd u))
           <$> findOne (by_userName (Some name)) (Users s)
    else favorites_of name s.
Proof.
  intros Hupd. unfold favorites_of, findOne, findOneAndUpdate.
  destruct (list_find (user_matches (by_userName (Some n))) (Users s))
    as [[i u]|] eqn:Hfind.
  - pose proof Hfind as (Hi & Hu & _)%list_find_Some. simpl in Hu.
    cbn [snd Users]. case_decide as Hn.
    + subst n.
      rewrite (list_find_insert_first _ _ _ _ _ Hfind), Hfind; [done|].
      simpl. by rewrite favorites_update_userName.
    + rewrite (list_find_insert_other _ _ _ u); [done|done|..].
      * simpl. rewrite Hu. congruence.
      * simpl. rewrite favorites_update_userName by done. rewrite Hu. congruence.
  - cbn [snd]. case_decide as Hn; [|done].
    subst n. by rewrite Hfind.
Qed.

(** The collections after a request that adds or removes a favourite: as
    before, or after the update the route issues. *)
Lemma other_reference_store m rq s :
  (∀ c s', fault env c s' = None) →
  other_reference m rq →
  store (serve env rq s) = s
  ∨ ∃ n r, r ≠ m
      ∧ (store (serve env rq s)
           = snd (findOneAndUpdate (omitUndefined env) (by_userName (Some n))
                    (push_FavoriteMovies r) s)
         ∨ store (serve env rq s)
           = snd (findOneAndUpdate (omitUndefined env) (by_userName (Some n))
                    (pull_FavoriteMovies r) s)).
Proof.
  intros Hf Ho. unfold other_reference in Ho.
  destruct (route rq) as [| | | | | | | | | |n r| |n r| | | |] eqn:Hr; try done.
  - destruct (jwtStrategy env (authorization rq) (Users s)) as [p| |e] eqn:Hj.
    + right. exists n, r. split; [done|]. left.
      rewrite (serve_guarded rq s p (post_favoriteMovies env n r));
        [|by rewrite Hr|done].
      by rewrite post_favoriteMovies_run.
    + left. rewrite serve_unfold, Hr. cbn [stack].
      by rewrite guard_fail.
    + left. rewrite serve_unfold, Hr. cbn [stack].
      rewrite (guard_error _ _ _ _ e) by done. apply next_error_store.
  - right. exists n, r. split; [done|]. right.
    rewrite serve_unfold, Hr. cbn [stack dispatch].
    by rewrite delete_movies_title_run.
Qed.

(** Such a request keeps the addressed user and does not change whether
    [m] is among the favourites. *)
Lemma other_reference_step m rq name s l :
  (∀ c s', fault env c s' = None) →
  other_reference m rq →
  favorites_of name s = Some l →
  ∃ l', favorites_of name (store (serve env rq s)) = Some l' ∧ (m ∈ l' ↔ m ∈ l).
Proof.
  intros Hf Ho Hl.
  destruct (other_reference_store m rq s Hf Ho) as [->|(n & r & Hr & [->| ->])];
    [by eauto|..];
    rewrite favorites_of_update by done;
    (case_decide; [|by eauto]);
    unfold favorites_of in Hl;
    destruct (findOne (by_userName (Some name)) (Users s)) as [u|]; [|done| |done];
    injection Hl as <-; eexists; (split; [done|]); cbn.
  - rewrite elem_of_app, list_elem_of_singleton. split; [|by left].
    intros [Hin|Heq]; [done|]. by destruct Hr.
  - rewrite list_elem_of_filter. split; [by intros [_ Hin]|].
    intros Hin. split; [|done]. intros ->. by destruct Hr.
Qed.

Lemma serve_all_others m rqs name s l :
  (∀ c s', fault env c s' = None) →
  Forall (other_reference m) rqs →
  favorites_of name s = Some l →
  ∃ l', favorites_of name (serve_all env rqs s) = Some l' ∧ (m ∈ l' ↔ m ∈ l).
Proof.
  intros Hf Hall. revert s l.
  induction Hall as [|rq rqs Ho _ IH]; intros s l Hl; [by eauto|].
  destruct (other_reference_step m rq name s l Hf Ho Hl) as (l1 & Hl1 & H1).
  destruct (IH _ _ Hl1) as (l2 & Hl2 & H2).
  exists l2. split; [done|]. by rewrite H2.
Qed.

(** Listing answers with the favourites of the addressed user. *)
Lemma list_favorites_response rq s p name l :
  (∀ c s', fault env c s' = None) →
  route rq = GET_users_favorites_userName name →
  jwtStrategy env (authorization rq) (Users s) = success p →
  favorites_of name s = Some l →
  sent (serve env rq s) = Some {| status := 200; payload := JsonStrings l |}.
Proof.
  intros Hf Hr Hj Hl.
  rewrite (serve_guarded rq s p (get_favorites env name)); [|by rewrite Hr|done].
  rewrite get_favorites_run by done. cbn [sent].
  unfold favorites_of in Hl.
  destruct (findOne (by_userName (Some name)) (Users s)) as [u|]; [|done].
  by injection Hl as <-.
Qed.

(** C6. For a stored user, with a storage that answers and a credential
    that the strategy accepts at the three moments it is presented (the add,
    and the two listings, each with the principal of that moment): after
    adding the reference [m], listing yields an array that contains [m];
    after then removing [m], listing yields an array without it; and this
    holds whatever adding and removing of other references is interleaved. *)
Theorem C6_add_list_remove_list s name m p p1 p2 add remove listing between after :
  let s1 := serve_all env between (store (serve env add s)) in
  let s2 := serve_all env after (store (serve env remove s1)) in
  (∀ c s', fault env c s' = None) →
  is_Some (findOne (by_userName (Some name)) (Users s)) →
  route add = POST_users_userName_favoriteMovies_MovieID name m →
  jwtStrategy env (authorization add) (Users s) = success p →
  route remove = DELETE_users_userName_movies_title name m →
  route listing = GET_users_favorites_userName name →
  jwtStrategy env (authorization listing) (Users s1) = success p1 →
  jwtStrategy env (authorization listing) (Users s2) = success p2 →
  Forall (other_reference m) between →
  Forall (other_reference m) after →
  (∃ l, sent (serve env listing s1)
        = Some {| status := 200; payload := JsonStrings l |} ∧ m ∈ l)
  ∧ (∃ l, sent (serve env listing s2)
          = Some {| status := 200; payload := JsonStrings l |} ∧ m ∉ l).
Proof.
  intros s1 s2 Hf [u0 Hu0] Hadd Hja Hrem Hlist Hj1 Hj2 Hb Ha.
  (* after the add *)
  assert (H0 : favorites_of name (store (serve env add s))
               = Some (FavoriteMovies u0 ++ [m])).
  { rewrite (serve_guarded add s p (post_favoriteMovies env name m));
      [|by rewrite Hadd|done].
    rewrite post_favoriteMovies_run by done. cbn [store].
    rewrite favorites_of_update by done.
    rewrite decide_True by done. by rewrite Hu0. }
  destruct (serve_all_others m between name _ _ Hf Hb H0) as (l1 & Hl1 & Hm1).
  fold s1 in Hl1.
  (* after the removal *)
  assert (H1 : favorites_of name (store (serve env remove s1))
               = Some (filter (λ x, x ≠ m) l1)).
  { rewrite serve_unfold, Hrem. cbn [stack dispatch].
    rewrite delete_movies_title_run by done. cbn [store].
    rewrite favorites_of_update by done.
    rewrite decide_True by done.
    unfold favorites_of in Hl1.
    destruct (findOne (by_userName (Some name)) (Users s1)) as [u1|]; [|done].
    by injection Hl1 as <-. }
  destruct (serve_all_others m after name _ _ Hf Ha H1) as (l2 & Hl2 & Hm2).
  fold s2 in Hl2.
  split.
  - exists l1. split; [by eapply (list_favorites_response listing s1 p1)|].
    apply Hm1. rewrite elem_of_app, list_elem_of_singleton. by right.
  - exists l2. split; [by eapply (list_favorites_response listing s2 p2)|].
    intros Hin. apply Hm2, list_elem_of_filter in Hin. by destruct Hin as [Hne _].
Qed.

(** ** Profile update *)

(** The callback of [PUT /users/:Username] when the storage answers: the
    body's properties are written as they are. *)
Lemma put_users_Username_run name (ctx : Ctx env) s :
  let b := body (req ctx) in
  let upd := set_profile (b !! "userName") (b !! "password") (b !! "email")
               (b !! "birthday") in
  fault env (Users_findOneAndUpdate_call (by_userName (Some name)) upd) s = None →
  snd (put_users_Username env name ctx (fresh s))
  = let r := findOneAndUpdate (omitUndefined env) (by_userName (Some name)) upd s in
    {| store := snd r;
       journal := [Users_findOneAndUpdate_call (by_userName (Some name)) upd];
       sent := Some {| status := 200; payload := json_user (fst r) |} |}.
Proof.
  intros b upd Hf. unfold put_users_Username, node_callback,
    Users_findOneAndUpdate, query, fresh. cbn [store journal sent app].
  fold b. fold upd. rewrite Hf.
  by destruct (findOneAndUpdate _ _ _ s) as [a s'].
Qed.

(** Registration stores the digest of the password. *)
Lemma registration_stores_digest rq s :
  route rq = POST_users →
  ∀ doc, Users_create_call doc ∈ journal (serve env rq s) →
         password doc = hashPassword env <$> body rq !! "password".
Proof.
  intros Hr doc. rewrite (serve_post_users _ _ Hr).
  destruct (violated_rules env (body rq)) as [|e l] eqn:Hv.
  - rewrite post_users_valid by done. cbn [req body].
    destruct (fault env (Users_findOne_call _) s) as [e|].
    { cbn. intros Hin. apply list_elem_of_singleton in Hin. discriminate Hin. }
    destruct (findOne _ (Users s)) as [v|].
    { cbn. intros Hin. apply list_elem_of_singleton in Hin. discriminate Hin. }
    destruct (fault env (Users_create_call _) s) as [e|]; cbn;
      intros Hin; apply elem_of_cons in Hin as [Hin|Hin]; try discriminate Hin;
      apply list_elem_of_singleton in Hin; injection Hin as ->; done.
  - unfold post_users. cbn. intros Hin. by apply elem_of_nil in Hin.
Qed.

(** C1, where the code departs from it. An accepted profile update of a
    stored user writes the [password] property of the body into the record
    as it is, and the response carries the record with it. *)
Theorem C1_profile_update_stores_plaintext rq s p name i u pw :
  route rq = PUT_users_Username name →
  jwtStrategy env (authorization rq) (Users s) = success p →
  (∀ c, fault env c s = None) →
  list_find (user_matches (by_userName (Some name))) (Users s) = Some (i, u) →
  body rq !! "password" = Some pw →
  ∃ u', password u' = Some pw
        ∧ store (serve env rq s)
          = {| Users := <[i := u']> (Users s); Movies := Movies s |}
        ∧ sent (serve env rq s) = Some {| status := 200; payload := JsonUser u' |}.
Proof.
  intros Hr Hj Hf Hfind Hpw.
  rewrite (serve_guarded rq s p (put_users_Username env name));
    [|by rewrite Hr|done].
  rewrite put_users_Username_run by done. cbn [req].
  rewrite (findOneAndUpdate_found _ _ _ _ _ _ Hfind). cbn [fst snd store sent].
  eexists. split; [|split; reflexivity].
  cbn. by rewrite Hpw.
Qed.

(** C7, where the code departs from it. The stack of the profile update has
    no validation chain: an accepted update of a stored user writes the
    properties of the body into the record whatever rules they violate. *)
Theorem C7_profile_update_is_not_validated rq s p name i u :
  route rq = PUT_users_Username name →
  jwtStrategy env (authorization rq) (Users s) = success p →
  (∀ c, fault env c s = None) →
  list_find (user_matches (by_userName (Some name))) (Users s) = Some (i, u) →
  let b := body rq in
  let upd := set_profile (b !! "userName") (b !! "password") (b !! "email")
               (b !! "birthday") in
  validated env (route rq) = false
  ∧ serve env rq s
    = {| store := {| Users := <[i := apply_update (omitUndefined env) upd u]> (Users s);
                     Movies := Movies s |};
         journal := [Users_findOneAndUpdate_call (by_userName (Some name)) upd];
         sent := Some {| status := 200;
                         payload := JsonUser (apply_update (omitUndefined env) upd u) |} |}.
Proof.
  intros Hr Hj Hf Hfind b upd. split; [by rewrite Hr|].
  rewrite (serve_guarded rq s p (put_users_Username env name));
    [|by rewrite Hr|done].
  rewrite put_users_Username_run by done. cbn [req]. fold b. fold upd.
  by rewrite (findOneAndUpdate_found _ _ _ _ _ _ Hfind).
Qed.

End Properties.

(** * The properties on the concrete deployment *)

(** C2 at [GET /movies] without an [Authorization] header. *)
Lemma C2_witness :
  serve testbed (request GET_movies None) one_user
  = {| store := one_user; journal := [];
       sent := Some {| status := 401; payload := Text "Unauthorized" |} |}.
Proof.
  apply (C2_protected_route_unauthorized testbed (request GET_movies None) one_user);
    reflexivity.
Defined.

(** C3 at a payload that violates all four rules. *)
Lemma C3_witness :
  serve testbed register_all_wrong one_user
  = {| store := one_user; journal := [];
       sent := Some {| status := 422;
                       payload := JsonErrors
                         (violated_rules testbed (body register_all_wrong)) |} |}
  ∧ length (violated_rules testbed (body register_all_wrong)) = 4.
Proof.
  split; [|reflexivity].
  refine (proj1 (C3_registration_lists_every_violation testbed
                  register_all_wrong one_user eq_refl _)).
  vm_compute. discriminate.
Defined.

(** C4, as stated, fails on a taken username sent with an empty password:
    the answer is 422, not 400. *)
Lemma C4_counterexample :
  MovieFan1 ∈ Users one_user
  ∧ userName MovieFan1 = body register_taken_name_no_password !! "userName"
  ∧ serve testbed register_taken_name_no_password one_user
    = {| store := one_user; journal := [];
         sent := Some {| status := 422;
                         payload := JsonErrors
                           [{| value := Some ""; msg := "Password is required";
                               param := "password"; location := "body" |}] |} |}
  ∧ status <$> sent (serve testbed register_taken_name_no_password one_user)
    ≠ Some 400.
Proof.
  split; [by apply list_elem_of_singleton|]. split; [reflexivity|].
  split; [reflexivity|]. vm_compute. discriminate.
Qed.

(** C4, as amended, at a taken username sent with a valid payload. *)
Lemma C4_witness :
  serve testbed register_taken_name one_user
  = {| store := one_user;
       journal := [Users_findOne_call (by_userName (Some "MovieFan1"))];
       sent := Some {| status := 400;
                       payload := Text "MovieFan1already exists" |} |}.
Proof.
  apply (proj1 (C4_taken_username_conflict testbed register_taken_name one_user
                  eq_refl) "MovieFan1").
  - reflexivity.
  - exists MovieFan1. split; [by apply list_elem_of_singleton|reflexivity].
  - reflexivity.
  - reflexivity.
Defined.

(** C5, as stated, fails on adding a favourite for a username no stored user
    has: the answer is 200 with the body [null]. *)
Lemma C5_counterexample :
  findOne (by_userName (Some "ghost")) (Users one_user) = None
  ∧ serve testbed
      (request (POST_users_userName_favoriteMovies_MovieID "ghost" "abc123") bearer)
      one_user
    = {| store := one_user;
         journal := [Users_findOneAndUpdate_call (by_userName (Some "ghost"))
                       (push_FavoriteMovies "abc123")];
         sent := Some {| status := 200; payload := JsonNull |} |}
  ∧ signals_not_found {| status := 200; payload := JsonNull |} = false.
Proof. split; [reflexivity|]. split; reflexivity. Qed.

(** C5, as amended, at the stored user and at a username no user has. *)
Lemma C5_witness :
  serve testbed
    (request (POST_users_userName_favoriteMovies_MovieID "MovieFan1" "abc123") bearer)
    one_user
  = {| store := {| Users := [MovieFan1_with ["abc123"]]; Movies := [] |};
       journal := [Users_findOneAndUpdate_call (by_userName (Some "MovieFan1"))
                     (push_FavoriteMovies "abc123")];
       sent := Some {| status := 200;
                       payload := JsonUser (MovieFan1_with ["abc123"]) |} |}
  ∧ serve testbed
      (request (DELETE_users_userName_movies_title "ghost" "abc123") None)
      one_user
    = {| store := one_user;
         journal := [Users_findOneAndUpdate_call (by_userName (Some "ghost"))
                       (pull_FavoriteMovies "abc123")];
         sent := Some {| status := 200; payload := JsonNull |} |}.
Proof.
  split.
  - destruct (C5_favorites_found_or_null testbed one_user "MovieFan1" "abc123")
      as [Hfound _]; [intros c; reflexivity|].
    destruct (Hfound 0 MovieFan1 eq_refl) as (Hadd & _ & _).
    apply (Hadd _ "MovieFan1"); reflexivity.
  - destruct (C5_favorites_found_or_null testbed one_user "ghost" "abc123")
      as [_ Habsent]; [intros c; reflexivity|].
    destruct (Habsent eq_refl) as (_ & Hremove).
    apply Hremove. reflexivity.
Defined.

(** C6 with two interleaved requests on other references. *)
Lemma C6_witness :
  let add := request (POST_users_userName_favoriteMovies_MovieID "MovieFan1" "abc123") bearer in
  let remove := request (DELETE_users_userName_movies_title "MovieFan1" "abc123") None in
  let listing := request (GET_users_favorites_userName "MovieFan1") bearer in
  let between :=
    [request (POST_users_userName_favoriteMovies_MovieID "MovieFan1" "xyz789") bearer] in
  let after :=
    [request (DELETE_users_userName_movies_title "MovieFan1" "xyz789") None] in
  let s1 := serve_all by_lookup between (store (serve by_lookup add one_user)) in
  let s2 := serve_all by_lookup after (store (serve by_lookup remove s1)) in
  (∃ l, sent (serve by_lookup listing s1)
        = Some {| status := 200; payload := JsonStrings l |} ∧ "abc123" ∈ l)
  ∧ (∃ l, sent (serve by_lookup listing s2)
          = Some {| status := 200; payload := JsonStrings l |} ∧ "abc123" ∉ l).
Proof.
  intros add remove listing between after.
  apply (C6_add_list_remove_list by_lookup one_user "MovieFan1" "abc123"
           MovieFan1 (MovieFan1_with ["abc123"; "xyz789"]) (MovieFan1_with [])
           add remove listing between after);
    first [ reflexivity
          | by exists MovieFan1
          | repeat constructor; intros H; discriminate H ].
Defined.

(** C8 without an [Authorization] header. *)
Lemma C8_witness :
  serve testbed
    (request (DELETE_users_userName_movies_title "MovieFan1" "abc123") None)
    {| Users := [MovieFan1_with ["abc123"; "xyz789"; "abc123"]]; Movies := [] |}
  = {| store := {| Users := [MovieFan1_with ["xyz789"]]; Movies := [] |};
       journal := [Users_findOneAndUpdate_call (by_userName (Some "MovieFan1"))
                     (pull_FavoriteMovies "abc123")];
       sent := Some {| status := 200;
                       payload := JsonUser (MovieFan1_with ["xyz789"]) |} |}.
Proof.
  apply (proj1 (proj2 (C8_remove_favorite_unguarded testbed
           (request (DELETE_users_userName_movies_title "MovieFan1" "abc123") None)
           {| Users := [MovieFan1_with ["abc123"; "xyz789"; "abc123"]]; Movies := [] |}
           "MovieFan1" "abc123" eq_refl eq_refl))).
Defined.

(** C9 at a user who already has the reference. *)
Lemma C9_witness :
  store (serve testbed
           (request (POST_users_userName_favoriteMovies_MovieID "MovieFan1" "abc123")
                    bearer)
           {| Users := [MovieFan1_with ["abc123"]]; Movies := [] |})
  = {| Users := [MovieFan1_with ["abc123"; "abc123"]]; Movies := [] |}
  ∧ store (serve testbed
             (request (DELETE_users_userName_movies_title "MovieFan1" "abc123") None)
             {| Users := [MovieFan1_with ["abc123"]]; Movies := [] |})
    = {| Users := [MovieFan1_with []]; Movies := [] |}.
Proof.
  destruct (C9_push_appends_pull_removes_all testbed
              {| Users := [MovieFan1_with ["abc123"]]; Movies := [] |}
              "MovieFan1" "abc123" 0 (MovieFan1_with ["abc123"]) eq_refl)
    as [Hpush Hpull].
  split.
  - apply (Hpush _ "MovieFan1"); reflexivity.
  - apply Hpull; reflexivity.
Defined.

(** C10 at a genre no stored movie has. *)
Lemma C10_witness :
  serve testbed (request (GET_genres_genreName "Drama") bearer) one_user
  = {| store := one_user;
       journal := [Movies_findOne_call (by_Genre_Name "Drama")];
       sent := Some {| status := 500;
                       payload := Text ("Error" +:+ TypeError "Genre") |} |}.
Proof.
  apply (proj1 (C10_unmatched_genre_or_director_is_500 testbed
                  (request (GET_genres_genreName "Drama") bearer) one_user
                  "MovieFan1" "Drama" eq_refl) eq_refl).
  intros m Hm. by apply elem_of_nil in Hm.
Defined.

(** C1 at a profile update that sets the password [hunter2]: the record
    stored and the record returned hold [hunter2], which is not the digest. *)
Lemma C1_witness :
  (∃ u', password u' = Some "hunter2"
         ∧ store (serve testbed update_password one_user)
           = {| Users := [u']; Movies := [] |}
         ∧ sent (serve testbed update_password one_user)
           = Some {| status := 200; payload := JsonUser u' |})
  ∧ hashPassword testbed "hunter2" ≠ "hunter2".
Proof.
  split.
  - apply (C1_profile_update_stores_plaintext testbed update_password one_user
             "MovieFan1" "MovieFan1" 0 MovieFan1 "hunter2");
      reflexivity.
  - intros H. discriminate H.
Defined.

(** C7 at a profile update whose payload violates all four rules of
    registration: the record is overwritten with it. *)
Lemma C7_witness :
  length (violated_rules testbed (body update_all_wrong)) = 4
  ∧ serve testbed update_all_wrong one_user
    = {| store := {| Users := [{| userName := Some "ab!"; password := Some "";
                                  email := Some "nope"; Birthday := None;
                                  FavoriteMovies := [] |}];
                     Movies := [] |};
         journal := [Users_findOneAndUpdate_call (by_userName (Some "MovieFan1"))
                       (set_profile (Some "ab!") (Some "") (Some "nope") None)];
         sent := Some {| status := 200;
                         payload := JsonUser
                           {| userName := Some "ab!"; password := Some "";
                              email := Some "nope"; Birthday := None;
                              FavoriteMovies := [] |} |} |}.
Proof.
  split; [reflexivity|].
  apply (proj2 (C7_profile_update_is_not_validated testbed update_all_wrong one_user
                  "MovieFan1" "MovieFan1" 0 MovieFan1 eq_refl eq_refl
                  (λ c, eq_refl) eq_refl)).
Defined.

(** * Further properties of the routes *)

Section Further.

Context (env : Collaborators).

Implicit Types (rq : Request) (s : Store).

(** ** Registration and deregistration *)

(** A payload passes the rules exactly when all four hold. *)
Lemma violated_rules_nil (b : gmap string string) :
  violated_rules env b = [] ↔
    5 ≤ String.length (toString (b !! "userName"))
    ∧ validator_isAlphanumeric (toString (b !! "userName")) = true
    ∧ toString (b !! "password") ≠ ""
    ∧ validator_isEmail env (toString (b !! "email")) = true.
Proof.
  unfold violated_rules.
  destruct (decide (5 ≤ String.length (toString (b !! "userName")))) as [H1|H1],
    (validator_isAlphanumeric (toString (b !! "userName"))),
    (decide (toString (b !! "password") = "")) as [H3|H3],
    (validator_isEmail env (toString (b !! "email")));
    cbn; split; try done; intros (? & ? & ? & ?); done.
Qed.

(** A payload that passes the rules has a username and a password. *)
Lemma valid_payload_fields (b : gmap string string) :
  violated_rules env b = [] →
  ∃ n pw, b !! "userName" = Some n ∧ b !! "password" = Some pw
          ∧ 5 ≤ String.length n ∧ validator_isAlphanumeric n = true ∧ pw ≠ "".
Proof.
  intros (H1 & H2 & H3 & _)%violated_rules_nil.
  destruct (b !! "userName") as [n|]; [|cbn in H1; lia].
  destruct (b !! "password") as [pw|]; [|done].
  by exists n, pw.
Qed.

(** What a valid registration does, by the outcome of the lookup. *)
Lemma serve_post_users_valid rq s :
  route rq = POST_users →
  violated_rules env (body rq) = [] →
  (∀ c, fault env c s = None) →
  serve env rq s
  = let lookup := Users_findOne_call (by_userName (body rq !! "userName")) in
    let doc := registered_record env (body rq) in
    match findOne (by_userName (body rq !! "userName")) (Users s) with
    | Some _ =>
        {| store := s; journal := [lookup];
           sent := Some {| status := 400;
                           payload := Text (js_string (body rq !! "userName")
                                            +:+ "already exists") |} |}
    | None =>
        {| store := {| Users := Users s ++ [doc]; Movies := Movies s |};
           journal := [lookup; Users_create_call doc];
           sent := Some {| status := 201; payload := JsonUser doc |} |}
    end.
Proof.
  intros Hr Hv Hf. rewrite (serve_post_users _ _ _ Hr), Hv.
  rewrite post_users_valid by done. cbn [req body]. rewrite !Hf.
  by destruct (findOne _ (Users s)).
Qed.

(** The first match in a collection that has just received a matching
    document nobody matched before: the new document, at the end. *)
Lemma list_find_snoc q (l : list UserDoc) doc :
  findOne q l = None → user_matches q doc →
  list_find (user_matches q) (l ++ [doc]) = Some (length l, doc).
Proof.
  unfold findOne. intros Hnone Hdoc.
  destruct (list_find (user_matches q) l) as [[i u]|] eqn:Hl; [done|].
  rewrite list_find_app_r by done. cbn.
  by rewrite decide_True.
Qed.

(** The callback of [DELETE /users/:userName] when the storage answers. *)
Lemma delete_users_userName_run name (ctx : Ctx env) s :
  fault env (Users_findOneAndRemove_call (by_userName (Some name))) s = None →
  snd (delete_users_userName env name ctx (fresh s))
  = match list_find (user_matches (by_userName (Some name))) (Users s) with
    | Some (i, u) =>
        {| store := {| Users := delete i (Users s); Movies := Movies s |};
           journal := [Users_findOneAndRemove_call (by_userName (Some name))];
           sent := Some {| status := 200;
                           payload := Text (name +:+ " was deleted") |} |}
    | None =>
        {| store := s;
           journal := [Users_findOneAndRemove_call (by_userName (Some name))];
           sent := Some {| status := 400;
                           payload := Text (name +:+ " was not found") |} |}
    end.
Proof.
  intros Hf. unfold delete_users_userName, catch_, then_, Users_findOneAndRemove,
    query, findOneAndRemove, fresh. cbn [store journal sent app]. rewrite Hf.
  by destruct (list_find _ (Users s)) as [[i u]|].
Qed.

(** The callback of the lookup of one user when the storage answers. *)
Lemma get_users_Username_run name (ctx : Ctx env) s :
  fault env (Users_findOne_call (by_userName (Some name))) s = None →
  snd (get_users_Username env name ctx (fresh s))
  = {| store := s; journal := [Users_findOne_call (by_userName (Some name))];
       sent := Some {| status := 200;
                       payload := json_user (findOne (by_userName (Some name))
                                               (Users s)) |} |}.
Proof.
  intros Hf. unfold get_users_Username, catch_, then_, Users_findOne, query, fresh.
  cbn [store journal sent app]. by rewrite Hf.
Qed.

(** Registration with a payload that passes the rules, under a username no
    stored user has: the answer is 201 with the new record, which is added
    at the end of the collection with the digest of the password, the
    validated username and no favourites. *)
Theorem registration_creates_record rq s :
  route rq = POST_users →
  violated_rules env (body rq) = [] →
  findOne (by_userName (body rq !! "userName")) (Users s) = None →
  (∀ c, fault env c s = None) →
  let doc := registered_record env (body rq) in
  serve env rq s
  = {| store := {| Users := Users s ++ [doc]; Movies := Movies s |};
       journal := [Users_findOne_call (by_userName (body rq !! "userName"));
                   Users_create_call doc];
       sent := Some {| status := 201; payload := JsonUser doc |} |}
  ∧ ∃ n pw, userName doc = Some n ∧ password doc = Some (hashPassword env pw)
            ∧ body rq !! "password" = Some pw
            ∧ 5 ≤ String.length n ∧ validator_isAlphanumeric n = true
            ∧ pw ≠ "" ∧ FavoriteMovies doc = [].
Proof.
  intros Hr Hv Hnone Hf doc. split.
  - by rewrite serve_post_users_valid, Hnone.
  - destruct (valid_payload_fields _ Hv) as (n & pw & Hn & Hpw & ? & ? & ?).
    exists n, pw. unfold doc, registered_record. cbn. by rewrite Hpw.
Qed.

(** After a registration that succeeded, any valid registration under the
    same username is answered with 400 and leaves the collections as the
    first one left them. *)
Theorem second_registration_conflicts rq rq' s :
  route rq = POST_users → route rq' = POST_users →
  violated_rules env (body rq) = [] →
  violated_rules env (body rq') = [] →
  body rq' !! "userName" = body rq !! "userName" →
  findOne (by_userName (body rq !! "userName")) (Users s) = None →
  (∀ c s', fault env c s' = None) →
  let s1 := store (serve env rq s) in
  serve env rq' s1
  = {| store := s1;
       journal := [Users_findOne_call (by_userName (body rq !! "userName"))];
       sent := Some {| status := 400;
                       payload := Text (js_string (body rq !! "userName")
                                        +:+ "already exists") |} |}.
Proof.
  intros Hr Hr' Hv Hv' Hsame Hnone Hf s1. unfold s1.
  rewrite (serve_post_users_valid rq s), Hnone by done. cbn [store].
  rewrite (serve_post_users_valid rq') by done. rewrite Hsame.
  unfold findOne. cbn [Users].
  by rewrite (list_find_snoc _ _ (registered_record env (body rq)) Hnone eq_refl).
Qed.

(** The record a registration has created is the one the lookup of that
    username returns afterwards. *)
Theorem registration_then_lookup rq get s n p :
  route rq = POST_users →
  violated_rules env (body rq) = [] →
  body rq !! "userName" = Some n →
  findOne (by_userName (Some n)) (Users s) = None →
  (∀ c s', fault env c s' = None) →
  route get = GET_users_Username n →
  jwtStrategy env (authorization get) (Users (store (serve env rq s))) = success p →
  sent (serve env get (store (serve env rq s)))
  = Some {| status := 200;
            payload := JsonUser (registered_record env (body rq)) |}.
Proof.
  intros Hr Hv Hn Hnone Hf Hg Hj. revert Hj.
  rewrite (serve_post_users_valid rq s), Hn, Hnone by done. cbn [store].
  intros Hj.
  rewrite (serve_guarded _ get _ p (get_users_Username env n));
    [|by rewrite Hg|done].
  rewrite get_users_Username_run by done. cbn [sent Users].
  unfold findOne at 1.
  rewrite (list_find_snoc (by_userName (Some n)) _ _ Hnone); [done|].
  cbn. by rewrite Hn.
Qed.

(** Deregistration, when the storage answers: for a username a stored user
    has, the first such record is removed and the answer is 200 "was
    deleted"; for a username nobody has, the answer is 400 "was not found"
    and the collections are as before. *)
Theorem deregistration rq s name p :
  route rq = DELETE_users_userName name →
  jwtStrategy env (authorization rq) (Users s) = success p →
  fault env (Users_findOneAndRemove_call (by_userName (Some name))) s = None →
  (∀ i u,
     list_find (user_matches (by_userName (Some name))) (Users s) = Some (i, u) →
     store (serve env rq s) = {| Users := delete i (Users s); Movies := Movies s |}
     ∧ sent (serve env rq s)
       = Some {| status := 200; payload := Text (name +:+ " was deleted") |}
     ∧ length (Users (store (serve env rq s))) + 1 = length (Users s))
  ∧ (findOne (by_userName (Some name)) (Users s) = None →
     store (serve env rq s) = s
     ∧ sent (serve env rq s)
       = Some {| status := 400; payload := Text (name +:+ " was not found") |}).
Proof.
  intros Hr Hj Hf.
  rewrite (serve_guarded _ rq s p (delete_users_userName env name));
    [|by rewrite Hr|done].
  rewrite delete_users_userName_run by done. split.
  - intros i u Hfind. rewrite Hfind. cbn. split; [done|]. split; [done|].
    apply list_find_Some in Hfind as (Hi & _).
    rewrite length_delete by eauto. apply lookup_lt_Some in Hi. lia.
  - unfold findOne. by destruct (list_find _ (Users s)) as [[i u]|].
Qed.

(** Registering a username nobody has and then deregistering it gives back
    the collections as they were. *)
Theorem registration_then_deregistration rq del s n p :
  route rq = POST_users →
  violated_rules env (body rq) = [] →
  body rq !! "userName" = Some n →
  findOne (by_userName (Some n)) (Users s) = None →
  (∀ c s', fault env c s' = None) →
  route del = DELETE_users_userName n →
  jwtStrategy env (authorization del) (Users (store (serve env rq s))) = success p →
  store (serve env del (store (serve env rq s))) = s
  ∧ sent (serve env del (store (serve env rq s)))
    = Some {| status := 200; payload := Text (n +:+ " was deleted") |}.
Proof.
  intros Hr Hv Hn Hnone Hf Hd Hj. revert Hj.
  rewrite (serve_post_users_valid rq s), Hn, Hnone by done. cbn [store].
  intros Hj.
  rewrite (serve_guarded _ del _ p (delete_users_userName env n));
    [|by rewrite Hd|done].
  rewrite delete_users_userName_run by done. cbn [Users Movies].
  rewrite (list_find_snoc (by_userName (Some n)) _ _ Hnone);
    [|by cbn; rewrite Hn].
  cbn. split; [|done].
  rewrite (delete_middle (Users s) []), app_nil_r. by destruct s.
Qed.

(** ** What holds on every route *)

(** Unfolds a request into the calls and responses of its callback. *)
Ltac run_request :=
  unfold serve, fresh; cbn [route authorization body];
  cbn [stack dispatch req user errors route authorization body];
  unfold get_home, get_documentation, get_movies, get_users, get_movies_title,
    get_users_Username, get_genres_genreName, get_directors_Name, post_users,
    put_users_Username, post_favoriteMovies, delete_users_userName,
    delete_movies_title, get_favorites, get_secreturl, put_userName_MovieID,
    next_error, error_handler, finalhandler,
    catch_, then_, node_callback, throw, Movies_find, Movies_findOne, Users_find,
    Users_findOne, Users_create, Users_findOneAndUpdate, Users_findOneAndRemove,
    query, res_send, res_json, respond, findOne, findOneAndUpdate,
    findOneAndRemove;
  cbn [store journal sent app fst snd req user errors body
       registered_before_error_handler].

(** Splits on every verdict, storage answer and lookup result in the goal. *)
Ltac split_outcomes :=
  repeat (match goal with
          | |- context [jwtStrategy ?e ?h ?us] =>
              destruct (jwtStrategy e h us) eqn:?
          | |- context [fault ?e ?c ?s] => destruct (fault e c s) eqn:?
          | |- context [list_find ?P ?l] =>
              destruct (list_find P l) as [[??]|] eqn:?
          end;
          cbn [store journal sent app fst snd fmap option_fmap option_map
               Users Movies]).

(** The errors the chains of registration record, as [dispatch] builds
    them. *)
Lemma serve_post_users_cases rq s (Q : World → Prop) :
  route rq = POST_users →
  (violated_rules env (body rq) ≠ [] →
   Q {| store := s; journal := [];
        sent := Some {| status := 422;
                        payload := JsonErrors (violated_rules env (body rq)) |} |}) →
  (violated_rules env (body rq) = [] →
   Q (snd (post_users env {| req := rq; user := None; errors := [] |} (fresh s)))) →
  Q (serve env rq s).
Proof.
  intros Hr H422 Hvalid. rewrite (serve_post_users _ _ _ Hr).
  destruct (violated_rules env (body rq)) as [|e l] eqn:Hv.
  - by apply Hvalid.
  - unfold post_users. cbn. by apply H422.
Qed.

(** A request to a route registered with [app.get] leaves both collections
    as they are, whatever its credential and whatever the storage answers. *)
Theorem GET_routes_read_only rq s :
  is_GET (route rq) = true → store (serve env rq s) = s.
Proof.
  destruct rq as [r h b]. destruct r; intros Hget; try discriminate Hget;
    run_request; split_outcomes; done.
Qed.

(** No request changes the movies collection. *)
Theorem movies_never_change rq s :
  Movies (store (serve env rq s)) = Movies s.
Proof.
  destruct rq as [r h b]. destruct r;
    try (run_request; split_outcomes; done).
  apply (serve_post_users_cases
           {| route := POST_users; authorization := h; body := b |} s
           (λ w, Movies (store w) = Movies s) eq_refl); [done|].
  intros _. rewrite post_users_valid by done. cbn [req body].
  unfold findOne. split_outcomes; done.
Qed.

(** Every response carries one of six status codes; no route ever answers
    404. *)
Theorem only_six_statuses rq s r :
  sent (serve env rq s) = Some r → status r ∈ sent_statuses ∧ status r ≠ 404.
Proof.
  assert (Hcodes : ∀ n, n ∈ sent_statuses → n ∈ sent_statuses ∧ n ≠ 404).
  { intros n Hn. split; [done|]. intros ->.
    unfold sent_statuses in Hn. repeat (apply elem_of_cons in Hn as [Hn|Hn];
      [discriminate Hn|]). by apply elem_of_nil in Hn. }
  assert (Hin : ∀ n, In n sent_statuses → n ∈ sent_statuses)
    by (intros n; apply list_elem_of_In).
  destruct rq as [r0 h b]. destruct r0;
    try (run_request; split_outcomes; intros Hr; try discriminate Hr;
         injection Hr as <-; apply Hcodes, Hin; cbn; tauto).
  apply (serve_post_users_cases
           {| route := POST_users; authorization := h; body := b |} s
           (λ w, sent w = Some r → status r ∈ sent_statuses ∧ status r ≠ 404)
           eq_refl).
  - intros _ Hr. injection Hr as <-. apply Hcodes, Hin. cbn. tauto.
  - intros _. rewrite post_users_valid by done. cbn [req body].
    unfold findOne. split_outcomes; intros Hr; injection Hr as <-;
      apply Hcodes, Hin; cbn; tauto.
Qed.

(** Every request is answered, except on the two routes whose [.catch]
    callback throws. *)
Theorem every_other_route_answers rq s :
  catch_throws (route rq) = false → is_Some (sent (serve env rq s)).
Proof.
  destruct rq as [r0 h b]. destruct r0; intros Hc; try discriminate Hc;
    try (run_request; split_outcomes; by eexists).
  apply (serve_post_users_cases
           {| route := POST_users; authorization := h; body := b |} s
           (λ w, is_Some (sent w)) eq_refl).
  - by eexists.
  - intros _. rewrite post_users_valid by done. cbn [req body].
    unfold findOne. split_outcomes; by eexists.
Qed.

(** When the storage rejects the call of [GET /users] or of
    [GET /users/:Username], the [.catch] callback throws on the unbound name
    [error] before it sends: the request gets no response. *)
Theorem users_lookup_failure_sends_nothing rq s p e :
  jwtStrategy env (authorization rq) (Users s) = success p →
  (route rq = GET_users ∧ fault env Users_find_call s = Some e)
  ∨ (∃ n, route rq = GET_users_Username n
          ∧ fault env (Users_findOne_call (by_userName (Some n))) s = Some e) →
  sent (serve env rq s) = None ∧ store (serve env rq s) = s.
Proof.
  intros Hj [[Hr Hf]|(n & Hr & Hf)].
  - rewrite (serve_guarded _ rq s p (get_users env)); [|by rewrite Hr|done].
    unfold get_users, catch_, then_, throw, Users_find, query, fresh.
    cbn [store journal sent]. by rewrite Hf.
  - rewrite (serve_guarded _ rq s p (get_users_Username env n));
      [|by rewrite Hr|done].
    unfold get_users_Username, catch_, then_, throw, Users_findOne, query, fresh.
    cbn [store journal sent]. by rewrite Hf.
Qed.

(** When the storage rejects every call with the error [e], every other
    route that queries it answers 500 with ["Error: "] or ["Error"] followed
    by [e], and the collections are as before. *)
Theorem storage_failure_is_500 rq s e :
  (∀ c, fault env c s = Some e) →
  queries_storage (route rq) = true →
  catch_throws (route rq) = false →
  (protected env (route rq) = true →
   ∃ p, jwtStrategy env (authorization rq) (Users s) = success p) →
  (route rq = POST_users → violated_rules env (body rq) = []) →
  store (serve env rq s) = s
  ∧ ∃ prefix, (prefix = "Error: " ∨ prefix = "Error")
              ∧ sent (serve env rq s)
                = Some {| status := 500; payload := Text (prefix +:+ e) |}.
Proof.
  intros Hf Hq Hc Hj Hv. destruct rq as [r0 h b].
  destruct r0; try discriminate Hq; try discriminate Hc;
    try (destruct (Hj eq_refl) as [p Hp]; cbn in Hp;
         run_request; rewrite Hp, Hf; cbn [store sent];
         split; [done|]; eexists; split; [|reflexivity]; tauto).
  - cbn in Hv.
    rewrite (serve_post_users env
               {| route := POST_users; authorization := h; body := b |} s eq_refl).
    cbn [body]. rewrite (Hv eq_refl).
    rewrite post_users_valid by done. cbn [req body]. rewrite Hf.
    cbn [snd store sent]. split; [done|]. eexists. split; [|reflexivity]. tauto.
  - run_request. rewrite Hf. cbn [store sent].
    split; [done|]. eexists. split; [|reflexivity]. tauto.
Qed.

(** When the strategy itself ends in an error, the error-handling middleware
    answers 500 "Error founded, fix it!" on every protected route registered
    before it; no mongoose call is issued. *)
Theorem strategy_error_reaches_error_handler rq s e :
  protected env (route rq) = true →
  registered_before_error_handler (route rq) = true →
  jwtStrategy env (authorization rq) (Users s) = error e →
  serve env rq s
  = {| store := s; journal := [];
       sent := Some {| status := 500; payload := Text "Error founded, fix it!" |} |}.
Proof.
  intros Hp Hb Hj. destruct (protected_stack _ _ Hp) as [h Hs].
  rewrite serve_unfold, Hs, (guard_error _ _ _ _ _ e) by done.
  unfold next_error. by rewrite Hb.
Qed.

(** ** How a request changes the users *)

(** Every request changes the collections in one of the four ways. *)
Lemma store_cases rq s : change env rq s (serve env rq s).
Proof.
  assert (Hsame : ∀ (w : World),
    store w = s →
    (route rq = POST_users → status <$> sent w ≠ Some 201) →
    (∀ n, route rq = DELETE_users_userName n → status <$> sent w ≠ Some 200) →
    change env rq s w) by (intros w ???; by left).
  destruct rq as [r h b]. destruct r; cbn [route] in Hsame;
    try (run_request; split_outcomes;
         (apply Hsame; [by destruct s|intros [=]|intros ? [=]])).
  - (* registration *)
    set (rq := {| route := POST_users; authorization := h; body := b |}).
    rewrite (serve_post_users env rq s eq_refl).
    destruct (violated_rules env (body rq)) as [|e l] eqn:Hv.
    + rewrite post_users_valid by done. cbn [req body].
      destruct (fault env (Users_findOne_call _) s);
        [apply Hsame; [done|intros _ [=]|intros ? [=]]|].
      destruct (findOne _ (Users s)) eqn:Hfind;
        [apply Hsame; [done|intros _ [=]|intros ? [=]]|].
      destruct (fault env (Users_create_call _) s);
        [apply Hsame; [done|intros _ [=]|intros ? [=]]|].
      right; left. by cbn.
    + unfold post_users. cbn. apply Hsame; [done|intros _ [=]|intros ? [=]].
  - (* profile update *)
    run_request. split_outcomes;
      try (apply Hsame; [by destruct s|intros [=]|intros ? [=]]).
    right; right; left. by repeat eexists.
  - (* adding a favourite *)
    run_request. split_outcomes;
      try (apply Hsame; [by destruct s|intros [=]|intros ? [=]]).
    right; right; left. by repeat eexists.
  - (* deregistration *)
    run_request. split_outcomes;
      try (apply Hsame; [by destruct s|intros [=]|intros ? _ [=]]).
    right; right; right. by repeat eexists.
  - (* removing a favourite *)
    run_request. split_outcomes;
      try (apply Hsame; [by destruct s|intros [=]|intros ? [=]]).
    right; right; left. by repeat eexists.
  - (* the route registered last: its filter matches no record *)
    run_request. split_outcomes;
      try (apply Hsame; [by destruct s|intros [=]|intros ? [=]]).
    match goal with
    | H : list_find _ _ = Some _ |- _ => apply list_find_Some in H as (_ & [] & _)
    end.
Qed.

(** Replacing a record by one with the same image under [f] keeps the
    images. *)
Lemma fmap_insert_same {A B} (f : A → B) (l : list A) i u u' :
  l !! i = Some u → f u' = f u → f <$> <[i := u']> l = f <$> l.
Proof.
  intros Hi Hf. rewrite list_fmap_insert. apply list_insert_id.
  by rewrite list_lookup_fmap, Hi, Hf.
Qed.

(** A username the lookup does not find is the username of no record. *)
Lemma findOne_None_fresh n (l : list UserDoc) :
  findOne (by_userName n) l = None → n ∉ userName <$> l.
Proof.
  unfold findOne. intros Hnone (u & -> & Hin)%list_elem_of_fmap.
  destruct (list_find _ l) as [[i v]|] eqn:Hfind; [done|].
  apply list_find_None in Hfind.
  by apply (proj1 (Forall_forall _ _) Hfind u Hin).
Qed.

(** The update of a request that is not a [PUT] is one on the favourites. *)
Lemma update_of_not_PUT rq n upd :
  is_PUT (route rq) = false → update_of rq = Some (n, upd) → favorites_update upd.
Proof.
  unfold update_of. destruct (route rq); intros Hp [= <- <-]; done.
Qed.

(** The number of users changes by a registration answered 201, which adds
    one, and by a deregistration answered 200, which removes one; every
    other request, whatever its outcome, leaves it as it is. *)
Theorem number_of_users rq s :
  let n := length (Users s) in
  let n' := length (Users (store (serve env rq s))) in
  let answer := status <$> sent (serve env rq s) in
  (route rq = POST_users → answer = Some 201 → n' = S n)
  ∧ (∀ name, route rq = DELETE_users_userName name → answer = Some 200 → S n' = n)
  ∧ (¬ (route rq = POST_users ∧ answer = Some 201) →
     ¬ (∃ name, route rq = DELETE_users_userName name ∧ answer = Some 200) →
     n' = n).
Proof.
  intros n n' answer. unfold n, n', answer.
  destruct (store_cases rq s)
    as [(Hs & Hpost & Hdel)
       |[(Hr & _ & _ & Hs & Hst)
        |[(name & upd & i & u & Hupd & Hfind & Hs & Hst)
         |(name & i & u & Hr & Hfind & Hs & Hst)]]]; rewrite Hs; cbn [Users].
  - split_and!; [intros Hr Ha; by destruct (Hpost Hr)
                |intros name Hr Ha; by destruct (Hdel name Hr)|done].
  - rewrite length_app. cbn. split_and!.
    + intros _ _. lia.
    + intros name Hr'. by rewrite Hr in Hr'.
    + intros Hno. by destruct Hno.
  - rewrite length_insert.
    assert (Hnp : route rq ≠ POST_users)
      by (intros Hr; unfold update_of in Hupd; by rewrite Hr in Hupd).
    assert (Hnd : ∀ name', route rq ≠ DELETE_users_userName name')
      by (intros name' Hr; unfold update_of in Hupd; by rewrite Hr in Hupd).
    split_and!; [intros Hr; by destruct Hnp
                |intros name' Hr; by destruct (Hnd name')|done].
  - apply list_find_Some in Hfind as (Hi & _).
    rewrite length_delete by eauto. apply lookup_lt_Some in Hi.
    split_and!.
    + intros Hr'. by rewrite Hr in Hr'.
    + intros _ _ _. lia.
    + intros _ Hno. destruct Hno. eauto.
Qed.

(** Usernames that are pairwise distinct stay so under every request that
    is not a [PUT], whatever its credential and whatever the storage
    answers. *)
Theorem usernames_stay_unique rq s :
  is_PUT (route rq) = false →
  unique_usernames s → unique_usernames (store (serve env rq s)).
Proof.
  intros Hput Hu. unfold unique_usernames in *.
  destruct (store_cases rq s)
    as [(Hs & _)
       |[(Hr & _ & Hnone & Hs & _)
        |[(name & upd & i & u & Hupd & Hfind & Hs & _)
         |(name & i & u & Hr & Hfind & Hs & _)]]]; rewrite Hs; cbn [Users].
  - done.
  - rewrite fmap_app. apply NoDup_app. split_and!; [done| |apply NoDup_singleton].
    intros x Hx Hin. apply list_elem_of_singleton in Hin. subst x.
    by apply (findOne_None_fresh _ _ Hnone).
  - apply list_find_Some in Hfind as (Hi & _).
    rewrite (fmap_insert_same userName _ _ u); [done|done|].
    apply favorites_update_userName. by eapply update_of_not_PUT.
  - rewrite list_fmap_delete. eapply sublist_NoDup; eauto using sublist_delete.
Qed.

(** A profile update checks nothing about the new username: when another
    record already has it, two records share it afterwards. *)
Theorem profile_update_can_duplicate_usernames rq s p name taken i u j v :
  route rq = PUT_users_Username name →
  jwtStrategy env (authorization rq) (Users s) = success p →
  (∀ c, fault env c s = None) →
  list_find (user_matches (by_userName (Some name))) (Users s) = Some (i, u) →
  body rq !! "userName" = Some taken →
  Users s !! j = Some v → j ≠ i → userName v = Some taken →
  status <$> sent (serve env rq s) = Some 200
  ∧ ¬ unique_usernames (store (serve env rq s)).
Proof.
  intros Hr Hj Hf Hfind Ht Hv Hji Hname.
  rewrite (serve_guarded _ rq s p (put_users_Username env name));
    [|by rewrite Hr|done].
  rewrite put_users_Username_run by done. cbn [req].
  rewrite (findOneAndUpdate_found _ _ _ _ _ _ Hfind). cbn [fst snd store sent].
  split; [done|].
  unfold unique_usernames. cbn [Users]. intros Hnd.
  apply list_find_Some in Hfind as (Hi & _).
  apply Hji. eapply (NoDup_lookup _ j i (Some taken) Hnd).
  - rewrite list_lookup_fmap, list_lookup_insert_ne by done.
    by rewrite Hv; cbn; rewrite Hname.
  - rewrite list_lookup_fmap, list_lookup_insert_eq
      by (by eapply lookup_lt_Some).
    cbn. by rewrite Ht.
Qed.

(** A profile update, whatever its outcome, changes neither the number of
    records nor anybody's favourites. *)
Theorem profile_update_keeps_favorites rq s name :
  route rq = PUT_users_Username name →
  FavoriteMovies <$> Users (store (serve env rq s)) = FavoriteMovies <$> Users s.
Proof.
  intros Hr.
  destruct (store_cases rq s)
    as [(Hs & _)
       |[(Hr' & _)
        |[(n & upd & i & u & Hupd & Hfind & Hs & _)
         |(n & i & u & Hr' & _)]]]; try (by rewrite Hr in Hr').
  - by rewrite Hs.
  - rewrite Hs. cbn [Users]. apply list_find_Some in Hfind as (Hi & _).
    apply (fmap_insert_same _ _ _ u); [done|].
    unfold update_of in Hupd. rewrite Hr in Hupd. by injection Hupd as <- <-.
Qed.

(** A profile update for a username no stored user has is answered with
    200 and the body [null]; nothing is created. *)
Theorem profile_update_of_unknown_user rq s p name :
  route rq = PUT_users_Username name →
  jwtStrategy env (authorization rq) (Users s) = success p →
  (∀ c, fault env c s = None) →
  findOne (by_userName (Some name)) (Users s) = None →
  store (serve env rq s) = s
  ∧ sent (serve env rq s) = Some {| status := 200; payload := JsonNull |}.
Proof.
  intros Hr Hj Hf Hnone.
  rewrite (serve_guarded _ rq s p (put_users_Username env name));
    [|by rewrite Hr|done].
  rewrite put_users_Username_run by done.
  by rewrite findOneAndUpdate_absent.
Qed.

(** Adding or removing a favourite, whatever its outcome, changes nothing
    but [FavoriteMovies]: every record keeps its username, password, e-mail
    and birthday, and the records of other usernames are untouched. *)
Theorem favorites_routes_frame rq s name m :
  route rq = POST_users_userName_favoriteMovies_MovieID name m
  ∨ route rq = DELETE_users_userName_movies_title name m →
  profile <$> Users (store (serve env rq s)) = profile <$> Users s
  ∧ (∀ j u, Users s !! j = Some u → userName u ≠ Some name →
            Users (store (serve env rq s)) !! j = Some u).
Proof.
  intros Hr.
  assert (Hupd' : ∃ upd, update_of rq = Some (name, upd) ∧ favorites_update upd).
  { unfold update_of.
    destruct Hr as [-> | ->]; eexists; (split; [reflexivity|exact I]). }
  destruct Hupd' as (upd0 & Hupd0 & Hfav).
  destruct (store_cases rq s)
    as [(Hs & _)
       |[(Hr' & _)
        |[(n & upd & i & u & Hupd & Hfind & Hs & _)
         |(n & i & u & Hr' & _)]]];
    try (destruct Hr as [Hr|Hr]; by rewrite Hr in Hr').
  - by rewrite Hs.
  - rewrite Hs. cbn [Users]. rewrite Hupd0 in Hupd. injection Hupd as <- <-.
    apply list_find_Some in Hfind as (Hi & Hu & _). cbn in Hu. split.
    + apply (fmap_insert_same _ _ _ u); [done|]. by destruct upd0.
    + intros j v Hj Hne. rewrite list_lookup_insert_ne; [done|].
      intros <-. rewrite Hi in Hj. injection Hj as <-. by destruct Hne.
Qed.

(** ** Favourites: round trip and idempotence *)

Lemma filter_other_id (m : string) (l : list string) :
  m ∉ l → filter (λ x, x ≠ m) l = l.
Proof.
  induction l as [|x l IH]; [done|]. intros Hm.
  apply not_elem_of_cons in Hm as [Hx Hl].
  rewrite filter_cons, decide_True by done. by rewrite IH.
Qed.

Lemma with_FavoriteMovies_id u : with_FavoriteMovies u (FavoriteMovies u) = u.
Proof. by destruct u. Qed.

(** The collections after the removal of a favourite, when the storage
    answers. *)
Lemma remove_favorite_store rq s name m :
  route rq = DELETE_users_userName_movies_title name m →
  (∀ c, fault env c s = None) →
  store (serve env rq s)
  = snd (findOneAndUpdate (omitUndefined env) (by_userName (Some name))
           (pull_FavoriteMovies m) s).
Proof.
  intros Hr Hf. rewrite serve_unfold, Hr. cbn [stack dispatch].
  by rewrite delete_movies_title_run.
Qed.

(** Adding a reference the user does not have and then removing it gives
    back the collections as they were. *)
Theorem add_then_remove_restores add remove s name m p i u :
  route add = POST_users_userName_favoriteMovies_MovieID name m →
  route remove = DELETE_users_userName_movies_title name m →
  jwtStrategy env (authorization add) (Users s) = success p →
  (∀ c s', fault env c s' = None) →
  list_find (user_matches (by_userName (Some name))) (Users s) = Some (i, u) →
  m ∉ FavoriteMovies u →
  store (serve env remove (store (serve env add s))) = s.
Proof.
  intros Ha Hr Hj Hf Hfind Hm.
  pose proof Hfind as (Hi & Hu & _)%list_find_Some.
  rewrite (remove_favorite_store remove _ name m) by done.
  rewrite (serve_guarded _ add s p (post_favoriteMovies env name m));
    [|by rewrite Ha|done].
  rewrite post_favoriteMovies_run by done.
  rewrite (findOneAndUpdate_found _ _ _ _ _ _ Hfind). cbn [snd store].
  rewrite (findOneAndUpdate_found _ _ _ _ i
             (apply_update (omitUndefined env) (push_FavoriteMovies m) u))
    by (cbn [Users]; by apply (list_find_insert_first _ _ _ u)).
  cbn [snd Users Movies apply_update with_FavoriteMovies userName password
       email Birthday FavoriteMovies].
  rewrite list_insert_insert_eq, filter_app, filter_other_id by done.
  rewrite filter_cons, decide_False, filter_nil, app_nil_r
    by (by intros H; apply H).
  change (with_FavoriteMovies (with_FavoriteMovies u (FavoriteMovies u ++ [m]))
            (FavoriteMovies u))
    with (with_FavoriteMovies u (FavoriteMovies u)).
  rewrite with_FavoriteMovies_id, list_insert_id by done. by destruct s.
Qed.

(** Removing a reference the first record of the username does not have
    changes nothing. *)
Lemma pull_absent_id s name m i u :
  list_find (user_matches (by_userName (Some name))) (Users s) = Some (i, u) →
  m ∉ FavoriteMovies u →
  snd (findOneAndUpdate (omitUndefined env) (by_userName (Some name))
         (pull_FavoriteMovies m) s) = s.
Proof.
  intros Hfind Hm.
  rewrite (findOneAndUpdate_found _ _ _ _ _ _ Hfind).
  cbn [snd apply_update]. rewrite filter_other_id by done.
  apply list_find_Some in Hfind as (Hi & _).
  rewrite with_FavoriteMovies_id, list_insert_id by done. by destruct s.
Qed.

(** Removing a favourite twice is the same as removing it once, and
    removing a reference the user does not have changes nothing. *)
Theorem remove_favorite_idempotent rq s name m :
  route rq = DELETE_users_userName_movies_title name m →
  (∀ c s', fault env c s' = None) →
  store (serve env rq (store (serve env rq s))) = store (serve env rq s)
  ∧ (∀ i u,
       list_find (user_matches (by_userName (Some name))) (Users s) = Some (i, u) →
       m ∉ FavoriteMovies u → store (serve env rq s) = s).
Proof.
  intros Hr Hf. split.
  - rewrite !(remove_favorite_store rq _ name m) by done.
    destruct (list_find (user_matches (by_userName (Some name))) (Users s))
      as [[i u]|] eqn:Hfind.
    + pose proof Hfind as (Hi & Hu & _)%list_find_Some.
      rewrite (findOneAndUpdate_found _ _ _ s _ _ Hfind). cbn [snd].
      apply (pull_absent_id _ name m i
               (apply_update (omitUndefined env) (pull_FavoriteMovies m) u)).
      * cbn [Users]. by apply (list_find_insert_first _ _ _ u).
      * cbn. intros Hin. apply list_elem_of_filter in Hin.
        by destruct Hin as [Hne _].
    + rewrite (findOneAndUpdate_absent _ _ _ s)
        by (unfold findOne; by rewrite Hfind).
      cbn [snd]. by rewrite findOneAndUpdate_absent
        by (unfold findOne; by rewrite Hfind).
  - intros i u Hfind Hm. rewrite (remove_favorite_store rq _ name m) by done.
    by eapply pull_absent_id.
Qed.

(** ** Lookups *)

(** The lookup of one movie and the lookup of one user answer 200 with the
    first match, and 200 with the body [null] when nothing matches. *)
Theorem single_lookups rq s p :
  jwtStrategy env (authorization rq) (Users s) = success p →
  (∀ c, fault env c s = None) →
  (∀ title, route rq = GET_movies_title title →
     sent (serve env rq s)
     = Some {| status := 200;
               payload := json_movie (snd <$> list_find (movie_matches (by_Title title))
                                                (Movies s)) |}
     ∧ ((∀ m, m ∈ Movies s → Title m ≠ title) →
        sent (serve env rq s) = Some {| status := 200; payload := JsonNull |}))
  ∧ (∀ name, route rq = GET_users_Username name →
     sent (serve env rq s)
     = Some {| status := 200;
               payload := json_user (findOne (by_userName (Some name)) (Users s)) |}
     ∧ ((∀ u, u ∈ Users s → userName u ≠ Some name) →
        sent (serve env rq s) = Some {| status := 200; payload := JsonNull |})).
Proof.
  intros Hj Hf. split.
  - intros title Hr.
    rewrite (serve_guarded _ rq s p (get_movies_title env title));
      [|by rewrite Hr|done].
    unfold get_movies_title, catch_, then_, Movies_findOne, query, fresh.
    cbn [store journal sent app]. rewrite Hf. cbn [snd sent].
    split; [done|]. intros Hno.
    by rewrite (list_find_none_movies (by_Title title) _ Hno).
  - intros name Hr.
    rewrite (serve_guarded _ rq s p (get_users_Username env name));
      [|by rewrite Hr|done].
    rewrite get_users_Username_run by done. cbn [sent].
    split; [done|]. intros Hno.
    unfold findOne.
    assert (Hnone : list_find (user_matches (by_userName (Some name))) (Users s)
                    = None) by (apply list_find_None, Forall_forall; exact Hno).
    by rewrite Hnone.
Qed.

(** The genre and the director routes answer 200 with the genre, or the
    director, of the first movie that has the name. *)
Theorem genre_and_director_of_first_match rq s p i m :
  jwtStrategy env (authorization rq) (Users s) = success p →
  (∀ c, fault env c s = None) →
  (∀ name, route rq = GET_genres_genreName name →
     list_find (movie_matches (by_Genre_Name name)) (Movies s) = Some (i, m) →
     sent (serve env rq s) = Some {| status := 200; payload := JsonGenre (Genre m) |}
     ∧ Genre_Name (Genre m) = name)
  ∧ (∀ name, route rq = GET_directors_Name name →
     list_find (movie_matches (by_Director_Name name)) (Movies s) = Some (i, m) →
     sent (serve env rq s)
     = Some {| status := 200; payload := JsonDirector (Director m) |}
     ∧ Director_Name (Director m) = name).
Proof.
  intros Hj Hf. split; intros name Hr Hfind.
  - rewrite (serve_guarded _ rq s p (get_genres_genreName env name));
      [|by rewrite Hr|done].
    unfold get_genres_genreName, catch_, then_, Movies_findOne, query, fresh.
    cbn [store journal sent app]. rewrite Hf, Hfind. cbn.
    split; [done|]. by apply list_find_Some in Hfind as (_ & Hm & _).
  - rewrite (serve_guarded _ rq s p (get_directors_Name env name));
      [|by rewrite Hr|done].
    unfold get_directors_Name, catch_, then_, Movies_findOne, query, fresh.
    cbn [store journal sent app]. rewrite Hf, Hfind. cbn.
    split; [done|]. by apply list_find_Some in Hfind as (_ & Hm & _).
Qed.

(** ** The username rules *)

Lemma all_chars_false (p : Ascii.ascii → bool) (x : string) :
  all_chars p x = false ↔ ∃ c, In c (String.list_ascii_of_string x) ∧ p c = false.
Proof.
  induction x as [|a x IH]; cbn.
  - split; [done|by intros (c & [] & _)].
  - rewrite andb_false_iff, IH. split.
    + intros [Ha|(c & Hc & Hp)]; [exists a; auto|exists c; auto].
    + intros (c & [<-|Hc] & Hp); [by left|right; eauto].
Qed.

Lemma alphanumeric_char_false c :
  alphanumeric_char c = false ↔ ¬ digit_or_letter c.
Proof.
  unfold alphanumeric_char, digit_or_letter. cbv zeta.
  rewrite !orb_false_iff, !andb_false_iff, !Nat.leb_gt. lia.
Qed.

(** The chain [isAlphanumeric] fails on the empty string and on a string
    with a character that is no digit and no letter, and on nothing else. *)
Lemma isAlphanumeric_false (x : string) :
  validator_isAlphanumeric x = false ↔
    x = "" ∨ ∃ c, In c (String.list_ascii_of_string x) ∧ ¬ digit_or_letter c.
Proof.
  destruct x as [|a x].
  - split; [by left|done].
  - unfold validator_isAlphanumeric. rewrite all_chars_false. split.
    + intros (c & Hc & Hp). right. exists c. by rewrite <- alphanumeric_char_false.
    + intros [[=]|(c & Hc & Hp)]. exists c. by rewrite alphanumeric_char_false.
Qed.

(** A registration answered 422 lists the violated rules. *)
Lemma serve_post_users_422 rq s errs :
  route rq = POST_users →
  sent (serve env rq s) = Some {| status := 422; payload := JsonErrors errs |} →
  errs = violated_rules env (body rq).
Proof.
  intros Hr. apply (serve_post_users_cases rq s
    (λ w, sent w = Some {| status := 422; payload := JsonErrors errs |} →
          errs = violated_rules env (body rq)) Hr).
  - intros _ [= ->]. done.
  - intros _. rewrite post_users_valid by done. cbn [req body].
    unfold findOne. split_outcomes; intros [=].
Qed.

(** What registration does with the characters of the username: one
    character that is no digit and no ASCII letter, anywhere in it, is
    answered with 422 and the message of the second chain, before any
    mongoose call; and a 422 answer carries that message only for a username
    that is missing, empty or has such a character. *)
Theorem username_characters_checked rq s :
  route rq = POST_users →
  let x := toString (body rq !! "userName") in
  let entry := violation (body rq) "userName"
                 "Username contains non alphanumeric characters - not allowed." in
  ((∃ c, In c (String.list_ascii_of_string x) ∧ ¬ digit_or_letter c) →
   ∃ errs, serve env rq s
           = {| store := s; journal := [];
                sent := Some {| status := 422; payload := JsonErrors errs |} |}
           ∧ entry ∈ errs)
  ∧ (∀ errs,
       sent (serve env rq s) = Some {| status := 422; payload := JsonErrors errs |} →
       entry ∈ errs →
       x = "" ∨ ∃ c, In c (String.list_ascii_of_string x) ∧ ¬ digit_or_letter c).
Proof.
  intros Hr x entry.
  assert (Hentry : entry ∈ violated_rules env (body rq)
                   ↔ validator_isAlphanumeric x = false).
  { rewrite violated_rules_elem. unfold entry, x, violation. split.
    - intros H. decompose [or and] H; done.
    - intros H. auto. }
  split.
  - intros Hbad. exists (violated_rules env (body rq)).
    assert (Hin : entry ∈ violated_rules env (body rq))
      by (apply Hentry, isAlphanumeric_false; by right).
    split; [|done].
    rewrite (serve_post_users _ _ _ Hr). unfold post_users. cbn [req errors].
    destruct (violated_rules env (body rq)); [by apply elem_of_nil in Hin|done].
  - intros errs Hsent Hin.
    rewrite (serve_post_users_422 _ _ _ Hr Hsent) in Hin.
    by apply isAlphanumeric_false, Hentry.
Qed.

(** A registration whose body has no [userName] is answered with 422, and
    the list starts with both username entries, each with an undefined
    value. *)
Theorem missing_username_reported_twice rq s :
  route rq = POST_users →
  body rq !! "userName" = None →
  ∃ rest,
    serve env rq s
    = {| store := s; journal := [];
         sent := Some
           {| status := 422;
              payload := JsonErrors
                ({| value := None; msg := "Username is required";
                    param := "userName"; location := "body" |}
                 :: {| value := None;
                       msg := "Username contains non alphanumeric characters - not allowed.";
                       param := "userName"; location := "body" |}
                 :: rest) |} |}.
Proof.
  intros Hr Hn.
  assert (Hv : ∃ rest, violated_rules env (body rq)
                       = violation (body rq) "userName" "Username is required"
                         :: violation (body rq) "userName"
                              "Username contains non alphanumeric characters - not allowed."
                         :: rest).
  { unfold violated_rules. rewrite Hn. cbn. eauto. }
  destruct Hv as [rest Hv]. exists rest.
  rewrite (serve_post_users _ _ _ Hr), Hv. unfold post_users, violation.
  cbn. by rewrite Hn.
Qed.

(** ** Mongoose calls per request *)

(** No request issues more than two mongoose calls, only registration
    issues two, and a request answered 401 or 422 issues none. *)
Theorem calls_per_request rq s :
  let calls := journal (serve env rq s) in
  length calls ≤ 2
  ∧ (route rq ≠ POST_users → length calls ≤ 1)
  ∧ (status <$> sent (serve env rq s) = Some 401
     ∨ status <$> sent (serve env rq s) = Some 422 → calls = []).
Proof.
  cbv zeta. destruct rq as [r h b]. destruct r;
    try (run_request; split_outcomes; cbn;
         (split_and!; [lia|intros _; lia|intros [[=]|[=]]; done])).
  pattern (serve env {| route := POST_users; authorization := h; body := b |} s).
  apply (serve_post_users_cases
           {| route := POST_users; authorization := h; body := b |} s _ eq_refl).
  - intros _. cbn. split_and!; [lia|done|done].
  - intros _. rewrite post_users_valid by done. cbn [req body].
    unfold findOne. split_outcomes; cbn;
      (split_and!; [lia|by intros H|intros [[=]|[=]]]).
Qed.

End Further.

(** * The further properties on the concrete deployment *)

Lemma registration_creates_record_witness :
  serve testbed register_new one_user
  = {| store := {| Users := [MovieFan1; registered_record testbed (body register_new)];
                   Movies := [] |};
       journal := [Users_findOne_call (by_userName (Some "NewUser01"));
                   Users_create_call (registered_record testbed (body register_new))];
       sent := Some {| status := 201;
                       payload := JsonUser
                         (registered_record testbed (body register_new)) |} |}.
Proof.
  refine (proj1 (registration_creates_record testbed register_new one_user
                   eq_refl _ _ _)); reflexivity.
Defined.

Lemma second_registration_conflicts_witness :
  serve testbed register_new (store (serve testbed register_new one_user))
  = {| store := store (serve testbed register_new one_user);
       journal := [Users_findOne_call (by_userName (Some "NewUser01"))];
       sent := Some {| status := 400; payload := Text "NewUser01already exists" |} |}.
Proof.
  refine (second_registration_conflicts testbed register_new register_new one_user
            eq_refl eq_refl _ _ eq_refl _ _); reflexivity.
Defined.

Lemma registration_then_lookup_witness :
  sent (serve testbed (request (GET_users_Username "NewUser01") bearer)
          (store (serve testbed register_new one_user)))
  = Some {| status := 200;
            payload := JsonUser (registered_record testbed (body register_new)) |}.
Proof.
  refine (registration_then_lookup testbed register_new
            (request (GET_users_Username "NewUser01") bearer) one_user
            "NewUser01" "MovieFan1" eq_refl _ _ _ _ eq_refl _); reflexivity.
Defined.

Lemma deregistration_witness :
  store (serve testbed (request (DELETE_users_userName "MovieFan1") bearer) one_user)
  = {| Users := []; Movies := [] |}
  ∧ sent (serve testbed (request (DELETE_users_userName "ghost") bearer) one_user)
    = Some {| status := 400; payload := Text "ghost was not found" |}.
Proof.
  split.
  - destruct (deregistration testbed
                (request (DELETE_users_userName "MovieFan1") bearer) one_user
                "MovieFan1" "MovieFan1" eq_refl eq_refl eq_refl) as [Hfound _].
    exact (proj1 (Hfound 0 MovieFan1 eq_refl)).
  - destruct (deregistration testbed
                (request (DELETE_users_userName "ghost") bearer) one_user
                "ghost" "MovieFan1" eq_refl eq_refl eq_refl) as [_ Habsent].
    exact (proj2 (Habsent eq_refl)).
Defined.

Lemma registration_then_deregistration_witness :
  store (serve testbed (request (DELETE_users_userName "NewUser01") bearer)
           (store (serve testbed register_new one_user)))
  = one_user.
Proof.
  refine (proj1 (registration_then_deregistration testbed register_new
                   (request (DELETE_users_userName "NewUser01") bearer) one_user
                   "NewUser01" "MovieFan1" eq_refl _ _ _ _ eq_refl _));
    reflexivity.
Defined.

Lemma GET_routes_read_only_witness :
  store (serve outage (request GET_users bearer) two_users) = two_users.
Proof.
  exact (GET_routes_read_only outage (request GET_users bearer) two_users eq_refl).
Defined.

Lemma only_six_statuses_witness :
  422 ∈ sent_statuses ∧ 422 ≠ 404.
Proof.
  exact (only_six_statuses testbed register_all_wrong one_user
           {| status := 422;
              payload := JsonErrors (violated_rules testbed (body register_all_wrong)) |}
           eq_refl).
Defined.

Lemma every_other_route_answers_witness :
  is_Some (sent (serve outage (request GET_movies bearer) one_user)).
Proof.
  exact (every_other_route_answers outage (request GET_movies bearer) one_user
           eq_refl).
Defined.

Lemma users_lookup_failure_sends_nothing_witness :
  sent (serve outage (request GET_users bearer) one_user) = None
  ∧ store (serve outage (request GET_users bearer) one_user) = one_user.
Proof.
  apply (users_lookup_failure_sends_nothing outage (request GET_users bearer)
           one_user "MovieFan1" "MongoNetworkError: connection closed" eq_refl).
  left. split; reflexivity.
Defined.

Lemma storage_failure_is_500_witness :
  store (serve outage (request (GET_users_favorites_userName "MovieFan1") bearer)
           one_user) = one_user
  ∧ ∃ prefix, (prefix = "Error: " ∨ prefix = "Error")
      ∧ sent (serve outage
                (request (GET_users_favorites_userName "MovieFan1") bearer) one_user)
        = Some {| status := 500;
                  payload := Text (prefix +:+ "MongoNetworkError: connection closed") |}.
Proof.
  apply (storage_failure_is_500 outage
           (request (GET_users_favorites_userName "MovieFan1") bearer) one_user
           "MongoNetworkError: connection closed").
  - intros c. reflexivity.
  - reflexivity.
  - reflexivity.
  - intros _. exists "MovieFan1". reflexivity.
  - intros H. discriminate H.
Defined.

Lemma strategy_error_reaches_error_handler_witness :
  serve broken_strategy (request GET_movies bearer) one_user
  = {| store := one_user; journal := [];
       sent := Some {| status := 500; payload := Text "Error founded, fix it!" |} |}.
Proof.
  exact (strategy_error_reaches_error_handler broken_strategy
           (request GET_movies bearer) one_user
           "MongoNetworkError: connection closed" eq_refl eq_refl eq_refl).
Defined.

Lemma usernames_stay_unique_witness :
  unique_usernames (store (serve testbed register_new one_user)).
Proof.
  apply (usernames_stay_unique testbed register_new one_user eq_refl).
  apply NoDup_singleton.
Defined.

Lemma profile_update_can_duplicate_usernames_witness :
  status <$> sent (serve testbed rename_to_taken two_users) = Some 200
  ∧ ¬ unique_usernames (store (serve testbed rename_to_taken two_users)).
Proof.
  apply (profile_update_can_duplicate_usernames testbed rename_to_taken two_users
           "MovieFan1" "Cinephile" "MovieFan1" 1 Cinephile 0 MovieFan1);
    first [ reflexivity | intros H; discriminate H ].
Defined.

Lemma profile_update_keeps_favorites_witness :
  FavoriteMovies <$> Users (store (serve testbed rename_to_taken two_users))
  = [[]; ["abc123"]].
Proof.
  exact (profile_update_keeps_favorites testbed rename_to_taken two_users
           "Cinephile" eq_refl).
Defined.

Lemma profile_update_of_unknown_user_witness :
  store (serve testbed update_ghost one_user) = one_user
  ∧ sent (serve testbed update_ghost one_user)
    = Some {| status := 200; payload := JsonNull |}.
Proof.
  apply (profile_update_of_unknown_user testbed update_ghost one_user
           "MovieFan1" "ghost"); reflexivity.
Defined.

Lemma favorites_routes_frame_witness :
  profile <$> Users (store (serve testbed
      (request (POST_users_userName_favoriteMovies_MovieID "MovieFan1" "xyz789") bearer)
      two_users))
  = profile <$> Users two_users.
Proof.
  refine (proj1 (favorites_routes_frame testbed
      (request (POST_users_userName_favoriteMovies_MovieID "MovieFan1" "xyz789") bearer)
      two_users "MovieFan1" "xyz789" _)).
  left. reflexivity.
Defined.

Lemma add_then_remove_restores_witness :
  store (serve testbed
           (request (DELETE_users_userName_movies_title "Cinephile" "xyz789") None)
           (store (serve testbed
              (request (POST_users_userName_favoriteMovies_MovieID "Cinephile" "xyz789")
                       bearer)
              two_users)))
  = two_users.
Proof.
  apply (add_then_remove_restores testbed
           (request (POST_users_userName_favoriteMovies_MovieID "Cinephile" "xyz789")
                    bearer)
           (request (DELETE_users_userName_movies_title "Cinephile" "xyz789") None)
           two_users "Cinephile" "xyz789" "MovieFan1" 1 Cinephile);
    try reflexivity.
  intros Hin. apply list_elem_of_singleton in Hin. discriminate Hin.
Defined.

Lemma remove_favorite_idempotent_witness :
  let rq := request (DELETE_users_userName_movies_title "Cinephile" "abc123") None in
  store (serve testbed rq (store (serve testbed rq two_users)))
  = store (serve testbed rq two_users).
Proof.
  intros rq.
  refine (proj1 (remove_favorite_idempotent testbed rq two_users
                   "Cinephile" "abc123" eq_refl _)).
  intros c s'. reflexivity.
Defined.

Lemma single_lookups_witness :
  sent (serve testbed (request (GET_movies_title "Lost") bearer) with_movies)
  = Some {| status := 200; payload := JsonMovie Lost |}
  ∧ sent (serve testbed (request (GET_users_Username "ghost") bearer) with_movies)
    = Some {| status := 200; payload := JsonNull |}.
Proof.
  split.
  - refine (proj1 (proj1 (single_lookups testbed
               (request (GET_movies_title "Lost") bearer) with_movies "MovieFan1"
               eq_refl _) "Lost" eq_refl)).
    intros c. reflexivity.
  - refine (proj2 (proj2 (single_lookups testbed
               (request (GET_users_Username "ghost") bearer) with_movies "MovieFan1"
               eq_refl _) "ghost" eq_refl) _).
    + intros c. reflexivity.
    + intros u Hu. apply list_elem_of_singleton in Hu. subst u.
      intros H. discriminate H.
Defined.

Lemma genre_and_director_of_first_match_witness :
  sent (serve testbed (request (GET_genres_genreName "Drama") bearer) with_movies)
  = Some {| status := 200; payload := JsonGenre (Genre Lost) |}
  ∧ sent (serve testbed (request (GET_directors_Name "Alan Ball") bearer) with_movies)
    = Some {| status := 200; payload := JsonDirector (Director Lost) |}.
Proof.
  split.
  - refine (proj1 (proj1 (genre_and_director_of_first_match testbed
               (request (GET_genres_genreName "Drama") bearer) with_movies
               "MovieFan1" 0 Lost eq_refl _) "Drama" eq_refl eq_refl)).
    intros c. reflexivity.
  - refine (proj1 (proj2 (genre_and_director_of_first_match testbed
               (request (GET_directors_Name "Alan Ball") bearer) with_movies
               "MovieFan1" 0 Lost eq_refl _) "Alan Ball" eq_refl eq_refl)).
    intros c. reflexivity.
Defined.

Lemma missing_username_reported_twice_witness :
  ∃ rest,
    serve testbed (request POST_users None) one_user
    = {| store := one_user; journal := [];
         sent := Some
           {| status := 422;
              payload := JsonErrors
                ({| value := None; msg := "Username is required";
                    param := "userName"; location := "body" |}
                 :: {| value := None;
                       msg := "Username contains non alphanumeric characters - not allowed.";
                       param := "userName"; location := "body" |}
                 :: rest) |} |}.
Proof.
  exact (missing_username_reported_twice testbed (request POST_users None) one_user
           eq_refl eq_refl).
Defined.

Lemma username_characters_checked_witness :
  ∃ errs,
    serve testbed register_all_wrong one_user
    = {| store := one_user; journal := [];
         sent := Some {| status := 422; payload := JsonErrors errs |} |}
    ∧ violation (body register_all_wrong) "userName"
        "Username contains non alphanumeric characters - not allowed." ∈ errs.
Proof.
  refine (proj1 (username_characters_checked testbed register_all_wrong one_user
                   eq_refl) _).
  exists (Ascii.ascii_of_nat 33). split.
  - right. right. left. reflexivity.
  - unfold digit_or_letter.
    change (Ascii.nat_of_ascii (Ascii.ascii_of_nat 33)) with 33. lia.
Defined.
